(** * auto-retry.py: retry with exponential backoff around [lecoder-cgpu run]

    A shallow embedding of [examples/auto-retry.py] and the properties of its
    error classifier, retry policy, backoff schedule, attempt loop and
    command-line entry point.

    Modelling conventions.
    - Python [int] is [Z]. A Python [float] is the rational [Q] it stands
      for: rounding, the infinities and NaN are outside the model. The two
      places where a number too large for its target makes the script
      raise [OverflowError] are modelled: the conversion of the [int]
      [2 ** (attempt - 1)] to [float] in line 203, and the conversion of
      the delay to a count of nanoseconds inside [time.sleep].
    - A Python [str] is the [string] of its UTF-8 bytes, so a character is
      a byte that is not a continuation byte together with the
      continuation bytes that follow it.
    - Values of unknown type (what [json.loads] returns and what is read
      back with [dict.get]) are [pyval]; a [dict] with string keys is a
      [gmap string pyval].
    - A raised exception is [inl e] in the error monad [exn + A]; code
      with effects runs in [M], which threads the [world]: the number of
      [subprocess.run] calls made so far and the trace of everything the
      script did to its environment.
    - Assumed of the environment: [print] succeeds (the streams are open
      and can encode the text), [str(timeout)] is within the interpreter's
      limit on the digits of an [int], and no signal interrupts the
      script. What [argparse] makes of the command line is an input of the
      model, as the answers of [subprocess.run] are. *)

From Stdlib Require Import ZArith QArith Qminmax Qpower Ascii String List Lia.
From Stdlib Require DecimalString.
From stdpp Require Import base decidable option gmap strings.
Import ListNotations.

#[local] Set Warnings "-register-all".
#[local] Open Scope Z_scope.

(** ** Python values *)

Inductive pyval : Type :=
| PNone
| PBool (b : bool)
| PInt (n : Z)
| PFloat (q : Q)
| PStr (s : string)
| PList (l : list pyval)
| PDict (d : gmap string pyval).

Inductive exn : Type :=
| UnboundLocalError (name : string)
| AttributeError
| TypeError
| ValueError
| OverflowError
| OSError
| SystemExit (status : Z).

(** [bool(v)] *)
Definition truthy (v : pyval) : bool :=
  match v with
  | PNone => false
  | PBool b => b
  | PInt n => negb (n =? 0)
  | PFloat q => negb (Qeq_bool q 0)
  | PStr s => negb (String.eqb s "")
  | PList l => negb (Nat.eqb (length l) 0)
  | PDict d => negb (Nat.eqb (size d) 0)
  end.

(** [hash(v)] succeeds on scalars and raises [TypeError] on lists and
    dicts. *)
Definition hashable (v : pyval) : bool :=
  match v with
  | PList _ | PDict _ => false
  | _ => true
  end.

(** The integer a value compares equal to under [==], if there is one:
    [True == 1], [1101.0 == 1101]. *)
Definition as_integer (v : pyval) : option Z :=
  match v with
  | PInt n => Some n
  | PBool b => Some (Z.b2z b)
  | PFloat q =>
      if Qnum q mod Z.pos (Qden q) =? 0 then Some (Qnum q / Z.pos (Qden q))
      else None
  | _ => None
  end.

(** [v in s] for a set [s] of ints. *)
Definition py_in (v : pyval) (s : gset Z) : exn + bool :=
  if hashable v then
    inr (match as_integer v with
         | Some z => bool_decide (z ∈ s)
         | None => false
         end)
  else inl TypeError.

(** [v >= n] for an int [n]. *)
Definition py_ge (v : pyval) (n : Z) : exn + bool :=
  match v with
  | PInt m => inr (bool_decide (n ≤ m))
  | PBool b => inr (bool_decide (n ≤ Z.b2z b))
  | PFloat q => inr (Qle_bool (inject_Z n) q)
  | _ => inl TypeError
  end.

(** [v.get(key, default)] *)
Definition py_get (v : pyval) (key : string) (dflt : pyval) : exn + pyval :=
  match v with
  | PDict d => inr (default dflt (d !! key))
  | _ => inl AttributeError
  end.

(** ** The error monad *)

Definition ebind {A B : Type} (c : exn + A) (k : A → exn + B) : exn + B :=
  match c with
  | inl e => inl e
  | inr a => k a
  end.

Declare Scope exn_scope.
Delimit Scope exn_scope with exn.
Notation "'let?' x := c 'in' k" := (ebind c (fun x => k))
  (at level 10, x name, c at level 100, k at level 200) : exn_scope.

(** ** Error taxonomy (lines 27-55) *)

Inductive ErrorCategory : Type := TRANSIENT | RESOURCE | CODE | AUTH | UNKNOWN.

#[global] Instance ErrorCategory_eq_dec : EqDecision ErrorCategory.
Proof. solve_decision. Defined.

Definition category_value (c : ErrorCategory) : string :=
  match c with
  | TRANSIENT => "transient"
  | RESOURCE => "resource"
  | CODE => "code"
  | AUTH => "auth"
  | UNKNOWN => "unknown"
  end.

Definition TRANSIENT_ERROR_CODES : gset Z := {[ 1101; 1103; 1105; 1401; 1402 ]}.
Definition RESOURCE_ERROR_CODES : gset Z := {[ 1104; 1204 ]}.
Definition NON_RETRYABLE_CODES : gset Z :=
  {[ 1001; 1002; 1003; 1004; 1201; 1202; 1205; 1206 ]}.

(** ** categorize_error (lines 71-80) *)

Definition categorize_error (error_code : pyval) : exn + ErrorCategory :=
  (let? transient := py_in error_code TRANSIENT_ERROR_CODES in
   if transient then inr TRANSIENT
   else
     let? resource := py_in error_code RESOURCE_ERROR_CODES in
     if resource then inr RESOURCE
     else
       let? non_retryable := py_in error_code NON_RETRYABLE_CODES in
       if non_retryable then
         let? high := py_ge error_code 1200 in
         inr (if high then CODE else AUTH)
       else inr UNKNOWN)%exn.

(** ** should_retry (lines 83-97) *)

Definition should_retry (error_code : pyval) (attempt max_retries : Z)
  : exn + bool :=
  if bool_decide (attempt >= max_retries) then inr false
  else
    (let? category := categorize_error error_code in
     if decide (category = TRANSIENT) then inr true
     else if decide (category = RESOURCE) then inr (bool_decide (attempt < 3))
     else if decide (category = UNKNOWN) then inr (bool_decide (attempt < 2))
     else inr false)%exn.

(** ** ExecutionResult (lines 58-68) *)

Record ExecutionResult : Type := mkExecutionResult {
  success : bool;
  result : pyval;
  stdout : pyval;
  stderr : pyval;
  execution_time : pyval;
  error_code : pyval;
  error_message : pyval;
  attempts : Z
}.

(** [ExecutionResult(success=True, result=.., stdout=.., stderr=..,
    execution_time=.., attempts=..)]: the error fields keep their default
    [None]. *)
Definition success_result (res out err time : pyval) (attempt : Z)
  : ExecutionResult :=
  {| success := true; result := res; stdout := out; stderr := err;
     execution_time := time; error_code := PNone; error_message := PNone;
     attempts := attempt |}.

(** [ExecutionResult(success=False, error_code=.., error_message=..,
    attempts=..)]: the payload fields keep their defaults. *)
Definition failure_result (code message : pyval) (attempt : Z)
  : ExecutionResult :=
  {| success := false; result := PNone; stdout := PStr ""; stderr := PStr "";
     execution_time := PFloat 0; error_code := code;
     error_message := message; attempts := attempt |}.

(** ** The environment *)

(** What one call of [subprocess.run] and the decoding of its output do:
    the process ends and [json.loads(result.stdout)] is [v]; the process
    ends with streams [out] and [err] and [json.loads] raises
    [JSONDecodeError]; the timeout expires; any other exception [e] is
    raised, [text] being [str(e)]. *)
Inductive proc_outcome : Type :=
| Json_output (v : pyval)
| Other_output (out err : string)
| TimeoutExpired
| OtherException (text : string).

(** Lines printed by the script, before formatting. *)
Inductive message : Type :=
| Attempt_line (attempt max_retries : Z)
| Error_line (code : pyval) (category : string) (text : pyval)
| Not_retrying_line
| Retrying_line (delay : Q)
| Json_dump (output : gmap string pyval)
| Stdout_text (text : pyval)
| Result_line (res : pyval)
| Completed_line (time : pyval) (attempt : Z)
| Error_message_line (text : pyval)
| Error_code_line (code : pyval)
| Attempts_line (attempt : Z)
| Usage_error (text : string)
| Help_text.

Inductive event : Type :=
| Subprocess_run (cmd : list string) (timeout : Z)
| Sleep (seconds : Q)
| Print_stderr (line : message)
| Print_stdout (line : message).

Record world : Type := mkWorld {
  calls : nat;          (* calls of subprocess.run made so far *)
  trace : list event    (* oldest first *)
}.

Definition world0 : world := {| calls := 0; trace := [] |}.

(** ** The monad of effects *)

Definition M (A : Type) : Type := world → (exn + A) * world.

Definition ret {A : Type} (a : A) : M A := fun w => (inr a, w).

Definition raise {A : Type} (e : exn) : M A := fun w => (inl e, w).

Definition bind {A B : Type} (c : M A) (k : A → M B) : M B :=
  fun w =>
    match c w with
    | (inl e, w') => (inl e, w')
    | (inr a, w') => k a w'
    end.

Definition lift {A : Type} (c : exn + A) : M A := fun w => (c, w).

Definition emit (e : event) : M unit :=
  fun w => (inr tt, {| calls := calls w; trace := trace w ++ [e] |}).

Declare Scope M_scope.
Delimit Scope M_scope with M.
Notation "x <- c ;; k" := (bind c (fun x => k))
  (at level 100, c at next level, right associativity) : M_scope.
Notation "c ;; k" := (bind c (fun _ => k))
  (at level 100, right associativity) : M_scope.

Definition when (b : bool) (c : M unit) : M unit := if b then c else ret tt.

(** [print(..., file=sys.stderr)] and [print(...)] *)
Definition print_stderr (line : message) : M unit := emit (Print_stderr line).
Definition print_stdout (line : message) : M unit := emit (Print_stdout line).

(** The longest sleep, in seconds, is below [2 ** 63] nanoseconds. *)
Definition sleep_limit : Q := 9223372036854775808 # 1000000000.

(** [time.sleep] first converts its argument to a signed 64-bit count of
    nanoseconds. *)
Definition fits_timeout (secs : Q) : bool :=
  Qle_bool (- sleep_limit) secs && negb (Qle_bool sleep_limit secs).

(** [time.sleep(secs)] raises [OverflowError] when the conversion fails
    and [ValueError] on a negative length. *)
Definition sleep (secs : Q) : M unit :=
  if fits_timeout secs then
    if Qle_bool 0 secs then emit (Sleep secs) else raise ValueError
  else raise OverflowError.

(** [min(a, b)]: [b] when [b < a], else [a]. *)
Definition py_min (a b : Q) : Q :=
  match (b ?= a)%Q with
  | Lt => b
  | _ => a
  end.

(** [float(n)] for an [int], as [float * int] converts its right operand:
    it raises [OverflowError] when [n] rounds to [2 ** 1024] or beyond. *)
Definition float_of_int (n : Z) : exn + Q :=
  if Z.abs n <? 2 ^ 1024 - 2 ^ 970 then inr (inject_Z n)
  else inl OverflowError.

(** A byte [10xxxxxx] continues the character begun before it. *)
Definition is_continuation (c : ascii) : bool :=
  match c with
  | Ascii _ _ _ _ _ _ false true => true
  | _ => false
  end.

(** [s[:n]]: the first [n] characters of [s]. *)
Fixpoint py_prefix (n : nat) (s : string) : string :=
  match s with
  | EmptyString => EmptyString
  | String c rest =>
      if is_continuation c then String c (py_prefix n rest)
      else
        match n with
        | O => EmptyString
        | S n' => String c (py_prefix n' rest)
        end
  end.

(** [str(n)] *)
Definition str_of_int (n : Z) : string :=
  DecimalString.NilZero.string_of_int (Z.to_int n).

(** [range(lo, hi)] *)
Definition py_range (lo hi : Z) : list Z :=
  map (fun i => lo + Z.of_nat i) (seq 0 (Z.to_nat (hi - lo))).

(** A dict display [{k1: v1, ...}] *)
Definition dict (items : list (string * pyval)) : pyval :=
  PDict (list_to_map items).

(** ** run_on_colab (lines 100-147) *)

(** What the [try] block and its handlers return for each outcome of
    [subprocess.run]. *)
Definition colab_response (outcome : proc_outcome) : pyval :=
  match outcome with
  | Json_output v => v
  | Other_output out err =>
      dict [("success", PBool false);
            ("error",
             dict [("code", PInt 0);
                   ("message",
                    PStr ("Invalid JSON response: " ++ py_prefix 200 out))]);
            ("stderr", PStr err)]
  | TimeoutExpired =>
      dict [("success", PBool false);
            ("error",
             dict [("code", PInt 1203);
                   ("message", PStr "Execution timeout")])]
  | OtherException text =>
      dict [("success", PBool false);
            ("error", dict [("code", PInt 0); ("message", PStr text)])]
  end.

(** The local variables of [run_with_retry] that outlive a loop iteration;
    [attempt] is unbound until the loop binds it. *)
Record locals : Type := mkLocals {
  last_error_code : pyval;
  last_error_message : pyval;
  attempt_var : option Z
}.

(** How one iteration of the loop ends. *)
Inductive control : Type :=
| Next (l : locals)
| Break (l : locals)
| Return (r : ExecutionResult).

(** The value of [min(base_delay * (2 ** (attempt - 1)), max_delay)].
    Inside the loop [attempt] is at least 1, so [2 ** (attempt - 1)] is an
    [int]. *)
Definition backoff_delay (attempt : Z) (base_delay max_delay : Q) : Q :=
  py_min (base_delay * inject_Z (2 ^ (attempt - 1))%Z)%Q max_delay.

(** Line 203, [delay = min(base_delay * (2 ** (attempt - 1)), max_delay)]:
    the product of the [float] and the [int] converts the [int] first,
    and that raises when the power is too large. *)
Definition calculate_backoff_delay (attempt : Z) (base_delay max_delay : Q)
  : exn + Q :=
  (let? power := float_of_int (2 ^ (attempt - 1)) in
   inr (py_min (base_delay * power) max_delay))%exn.

Arguments calculate_backoff_delay : simpl never.
Arguments fits_timeout : simpl never.

Section Script.

(** The environment's answer to the [n]-th call of [subprocess.run]
    (counted from 0). *)
Variable env : nat → proc_outcome.

Definition subprocess_run (cmd : list string) (timeout : Z)
  : M proc_outcome :=
  fun w =>
    (inr (env (calls w)),
     {| calls := S (calls w);
        trace := trace w ++ [Subprocess_run cmd timeout] |}).

Definition run_on_colab (code : string) (timeout : Z) (kernel : bool)
  : M pyval :=
  (let cmd := ["lecoder-cgpu"; "run"; "--json"]%string in
   let cmd := if kernel then cmd ++ ["--kernel"%string] else cmd in
   let cmd := cmd ++ ["--timeout"%string; str_of_int timeout] in
   let cmd := cmd ++ [code] in
   outcome <- subprocess_run cmd (timeout + 30) ;;
   ret (colab_response outcome))%M.

(** ** run_with_retry (lines 150-216) *)

Section Run.

Variables (code : string) (max_retries : Z) (base_delay max_delay : Q)
          (timeout : Z) (kernel verbose : bool).

(** Lines 168-208: the body of the [for] loop. *)
Definition loop_body (attempt : Z) : M control :=
  (when verbose (print_stderr (Attempt_line attempt max_retries)) ;;
   result <- run_on_colab code timeout kernel ;;
   ok <- lift (py_get result "success" PNone) ;;
   if truthy ok then
     res <- lift (py_get result "result" PNone) ;;
     out <- lift (py_get result "stdout" (PStr "")) ;;
     err <- lift (py_get result "stderr" (PStr "")) ;;
     time <- lift (py_get result "executionTime" (PInt 0)) ;;
     ret (Return (success_result res out err time attempt))
   else
     error <- lift (py_get result "error" (PDict ∅)) ;;
     last_error_code <- lift (py_get error "code" (PInt 0)) ;;
     last_error_message <-
       lift (py_get error "message" (PStr "Unknown error")) ;;
     when verbose
       (category <- lift (categorize_error last_error_code) ;;
        print_stderr (Error_line last_error_code (category_value category)
                                 last_error_message)) ;;
     retry <- lift (should_retry last_error_code attempt max_retries) ;;
     let l := {| last_error_code := last_error_code;
                 last_error_message := last_error_message;
                 attempt_var := Some attempt |} in
     if negb retry then
       when verbose (print_stderr Not_retrying_line) ;;
       ret (Break l)
     else
       delay <-
         lift (calculate_backoff_delay attempt base_delay max_delay) ;;
       when verbose (print_stderr (Retrying_line delay)) ;;
       sleep delay ;;
       ret (Next l))%M.

(** The [for] loop over the attempt indices still to come: it ends by
    [return] ([inl r]) or falls through to the code after it ([inr l]), at
    a [break] or when the indices run out. *)
Fixpoint for_attempts (indices : list Z) (l : locals)
  : M (ExecutionResult + locals) :=
  match indices with
  | [] => ret (inr l)
  | attempt :: rest =>
      (c <- loop_body attempt ;;
       match c with
       | Next l' => for_attempts rest l'
       | Break l' => ret (inr l')
       | Return r => ret (inl r)
       end)%M
  end.

Definition run_with_retry : M ExecutionResult :=
  (let l := {| last_error_code := PInt 0;
               last_error_message := PStr "";
               attempt_var := None |} in
   after <- for_attempts (py_range 1 (max_retries + 1)) l ;;
   match after with
   | inl r => ret r
   | inr l =>
       match attempt_var l with
       | Some attempt =>
           ret (failure_result (last_error_code l) (last_error_message l)
                               attempt)
       | None => raise (UnboundLocalError "attempt")
       end
   end)%M.

End Run.

(** ** main (lines 219-326) *)

(** The namespace [parser.parse_args()] returns. *)
Record Args : Type := mkArgs {
  arg_code : option string;
  arg_file : option string;
  arg_max_retries : Z;
  arg_timeout : Z;
  arg_base_delay : Q;
  arg_terminal : bool;
  arg_verbose : bool;
  arg_json : bool
}.

(** Truth value of an optional string argument. *)
Definition given (a : option string) : bool :=
  match a with
  | Some s => negb (String.eqb s "")
  | None => false
  end.

(** [f"{v:.2f}"] is defined on numbers only. *)
Definition format_f (v : pyval) : exn + pyval :=
  match v with
  | PInt _ | PFloat _ | PBool _ => inr v
  | PStr _ => inl ValueError
  | _ => inl TypeError
  end.

(** The files [open(path, "r")] can read, with their contents. *)
Variable files : string → option string.

(** Lines 268-326: what [main] does with the namespace that
    [parser.parse_args()] returned. *)
Definition main (args : Args) : M unit :=
  (code <-
     (if given (arg_file args) then
        match files (default ""%string (arg_file args)) with
        | Some text => ret text
        | None => raise OSError
        end
      else if given (arg_code args) then
        ret (default ""%string (arg_code args))
      else
        print_stderr
          (Usage_error "Either code argument or --file is required") ;;
        raise (SystemExit 2)) ;;
   r <- run_with_retry code (arg_max_retries args) (arg_base_delay args)
          60 (arg_timeout args) (negb (arg_terminal args))
          (arg_verbose args) ;;
   if arg_json args then
     let output : gmap string pyval :=
       list_to_map [("success"%string, PBool (success r));
                    ("result"%string, result r);
                    ("stdout"%string, stdout r);
                    ("stderr"%string, stderr r);
                    ("executionTime"%string, execution_time r);
                    ("attempts"%string, PInt (attempts r))] in
     let output :=
       if negb (success r) then
         <["error"%string :=
             dict [("code"%string, error_code r);
                   ("message"%string, error_message r)]]> output
       else output in
     print_stdout (Json_dump output)
   else if success r then
     when (truthy (stdout r)) (print_stdout (Stdout_text (stdout r))) ;;
     when (truthy (result r)) (print_stdout (Result_line (result r))) ;;
     when (arg_verbose args)
       (time <- lift (format_f (execution_time r)) ;;
        print_stderr (Completed_line time (attempts r)))
   else
     print_stderr (Error_message_line (error_message r)) ;;
     when (arg_verbose args)
       (print_stderr (Error_code_line (error_code r)) ;;
        print_stderr (Attempts_line (attempts r))) ;;
     raise (SystemExit 1))%M.

(** The status the interpreter exits with: 0 when [main] returns, the
    argument of [sys.exit], and 1 after an uncaught exception. *)
Definition exit_status (args : Args) : Z :=
  match fst (main args world0) with
  | inr _ => 0
  | inl (SystemExit status) => status
  | inl _ => 1
  end.

(** What [parser.parse_args()] (line 266) makes of the command line: the
    namespace; or a usage error and [sys.exit(2)], for an option it does
    not know or a value that [int] or [float] rejects; or the help text
    and [sys.exit(0)], for [--help]. *)
Inductive parse_outcome : Type :=
| Parsed (args : Args)
| Rejected (text : string)
| Help.

(** Lines 219-326: [main] from the command line on. *)
Definition script (parsed : parse_outcome) : M unit :=
  match parsed with
  | Parsed args => main args
  | Rejected text =>
      (print_stderr (Usage_error text) ;; raise (SystemExit 2))%M
  | Help => (print_stdout Help_text ;; raise (SystemExit 0))%M
  end.

Definition script_exit_status (parsed : parse_outcome) : Z :=
  match fst (script parsed world0) with
  | inr _ => 0
  | inl (SystemExit status) => status
  | inl _ => 1
  end.

End Script.

(** ** The partition and the ordered rules, as the specification words them *)

Definition classify (code : Z) : ErrorCategory :=
  if (code =? 1101) || (code =? 1103) || (code =? 1105) || (code =? 1401)
     || (code =? 1402) then TRANSIENT
  else if (code =? 1104) || (code =? 1204) then RESOURCE
  else if (code =? 1001) || (code =? 1002) || (code =? 1003) || (code =? 1004)
          || (code =? 1201) || (code =? 1202) || (code =? 1205)
          || (code =? 1206)
       then (if 1200 <=? code then CODE else AUTH)
  else UNKNOWN.

Definition retry_rules (category : ErrorCategory) (attempt max_attempts : Z)
  : bool :=
  if max_attempts <=? attempt then false
  else match category with
       | TRANSIENT => true
       | RESOURCE => attempt <? 3
       | UNKNOWN => attempt <? 2
       | AUTH | CODE => false
       end.

(** ** The backoff formula, as the specification writes it *)

Definition delayFor (attempt : Z) (base_delay max_delay : Q) : Q :=
  Qmin (base_delay * 2 ^ (attempt - 1))%Q max_delay.

(** ** Vocabulary of the statements *)

(** How the attempt loop reads a response (lines 173 and 184-186): a
    success with its payload, a failure with its error code and message,
    or something [.get] cannot be called on. *)
Inductive reading : Type :=
| Succeeds (payload : gmap string pyval)
| Fails (code message : pyval)
| Malformed.

Definition observe (response : pyval) : reading :=
  match response with
  | PDict d =>
      if truthy (default PNone (d !! "success"%string)) then Succeeds d
      else
        match default (PDict ∅) (d !! "error"%string) with
        | PDict e =>
            Fails (default (PInt 0) (e !! "code"%string))
                  (default (PStr "Unknown error") (e !! "message"%string))
        | _ => Malformed
        end
  | _ => Malformed
  end.

(** The result returned when the attempt numbered [attempt] succeeds with
    [payload]. *)
Definition result_of_success (payload : gmap string pyval) (attempt : Z)
  : ExecutionResult :=
  success_result (default PNone (payload !! "result"%string))
                 (default (PStr "") (payload !! "stdout"%string))
                 (default (PStr "") (payload !! "stderr"%string))
                 (default (PInt 0) (payload !! "executionTime"%string))
                 attempt.

(** The response [run_on_colab] hands to attempt [i] (counted from 1) of a
    run that starts in [world0]. *)
Definition attempt_response (env : nat → proc_outcome) (i : Z) : pyval :=
  colab_response (env (Z.to_nat (i - 1))).

(** What a trace shows apart from progress reporting. *)
Definition is_progress (e : event) : bool :=
  match e with
  | Print_stderr _ => true
  | _ => false
  end.

Definition without_progress (t : list event) : list event :=
  List.filter (fun e => negb (is_progress e)) t.

(** Two worlds that differ in progress reporting only. *)
Definition alike (wv wq : world) : Prop :=
  calls wv = calls wq
  ∧ without_progress (trace wv) = without_progress (trace wq).

(** The locals describe the failure of the last attempt made. *)
Definition last_failure (env : nat → proc_outcome) (l : locals) (w : world)
  : Prop :=
  ∃ a, attempt_var l = Some a ∧ a = Z.of_nat (calls w) ∧ 1 ≤ a
       ∧ observe (attempt_response env a)
         = Fails (last_error_code l) (last_error_message l).

(** A non-empty string. *)
Definition nonempty_text (v : pyval) : bool :=
  match v with
  | PStr s => negb (String.eqb s "")
  | _ => false
  end.

(** ** Environments of the examples *)

(** [{"success": false, "error": {"code": .., "message": ..}}] *)
Definition failure_output (code : Z) (text : string) : proc_outcome :=
  Json_output
    (dict [("success"%string, PBool false);
           ("error"%string,
            dict [("code"%string, PInt code);
                  ("message"%string, PStr text)])]).

(** [{"success": true, "result": "4", "stdout": "", "stderr": "",
     "executionTime": 1.5}] *)
Definition success_output : proc_outcome :=
  Json_output
    (dict [("success"%string, PBool true);
           ("result"%string, PStr "4");
           ("stdout"%string, PStr "");
           ("stderr"%string, PStr "");
           ("executionTime"%string, PFloat (3 # 2))]).


(** Two connection timeouts, then success. *)
Definition third_time_lucky (n : nat) : proc_outcome :=
  match n with
  | 0%nat | 1%nat => failure_output 1101 "Connection timeout"
  | _ => success_output
  end.

(** The [n]-th call fails with code 1101 and says which call it was. *)
Definition always_times_out (n : nat) : proc_outcome :=
  failure_output 1101 ("Connection timeout " ++ str_of_int (Z.of_nat (S n))).

Definition never_authenticated (n : nat) : proc_outcome :=
  failure_output 1001 "Not authenticated".

(** A failure whose message is the empty string. *)
Definition silent_failure (n : nat) : proc_outcome :=
  failure_output 1001 "".

(** The collaborator prints [null]. *)
Definition answers_null (n : nat) : proc_outcome := Json_output PNone.

(** A failure whose error code is the JSON array [[]]. *)
Definition code_is_a_list (n : nat) : proc_outcome :=
  Json_output
    (dict [("success"%string, PBool false);
           ("error"%string,
            dict [("code"%string, PList []);
                  ("message"%string, PStr "Not authenticated")])]).

Definition no_files (path : string) : option string := None.

(** [auto-retry.py --json --max-retries 1 "print(1)"] *)
Definition json_args : Args :=
  {| arg_code := Some "print(1)"%string; arg_file := None;
     arg_max_retries := 1; arg_timeout := 300; arg_base_delay := 1;
     arg_terminal := false; arg_verbose := false; arg_json := true |}.

(** ** Vocabulary of the further properties *)

(** [len(s)], the number of characters. *)
Fixpoint py_len (s : string) : nat :=
  match s with
  | EmptyString => 0
  | String c rest =>
      if is_continuation c then py_len rest else S (py_len rest)
  end.

(** The lengths [time.sleep] sleeps for. *)
Definition sleep_accepts (secs : Q) : bool :=
  fits_timeout secs && Qle_bool 0 secs.

(** The code [main] goes on to run (lines 269-275), if it finds any. *)
Definition code_to_run (files : string → option string) (args : Args)
  : option string :=
  if given (arg_file args) then files (default ""%string (arg_file args))
  else if given (arg_code args) then arg_code args
  else None.


(** The command line [run_on_colab] builds. *)
Definition command_line (code : string) (timeout : Z) (kernel : bool)
  : list string :=
  ((if kernel then ["lecoder-cgpu"; "run"; "--json"; "--kernel"]
    else ["lecoder-cgpu"; "run"; "--json"])
   ++ ["--timeout"; str_of_int timeout]) ++ [code].

(** What a run of [k] attempts does to its environment, progress
    reporting apart: a call per attempt and, between two attempts, a sleep
    of the backoff delay. *)
Definition schedule (cmd : list string) (timeout : Z)
    (base_delay max_delay : Q) (k : Z) : list event :=
  flat_map (fun i => [Subprocess_run cmd timeout;
                      Sleep (backoff_delay i base_delay max_delay)])
           (py_range 1 k)
  ++ [Subprocess_run cmd timeout].

(** A sleep, if the event is one, lasts between 0 and [max_delay]. *)
Definition sleep_within (max_delay : Q) (e : event) : Prop :=
  match e with
  | Sleep d => (0 <= d)%Q ∧ (d <= max_delay)%Q
  | _ => True
  end.


(** The document [main] prints with [--json]. *)
Definition json_document (r : ExecutionResult) : gmap string pyval :=
  let output : gmap string pyval :=
    list_to_map [("success"%string, PBool (success r));
                 ("result"%string, result r);
                 ("stdout"%string, stdout r);
                 ("stderr"%string, stderr r);
                 ("executionTime"%string, execution_time r);
                 ("attempts"%string, PInt (attempts r))] in
  if negb (success r) then
    <["error"%string :=
        dict [("code"%string, error_code r);
              ("message"%string, error_message r)]]> output
  else output.

(** The arguments with the code given on the command line instead of in a
    file. *)
Definition with_code (text : string) (args : Args) : Args :=
  {| arg_code := Some text; arg_file := None;
     arg_max_retries := arg_max_retries args;
     arg_timeout := arg_timeout args;
     arg_base_delay := arg_base_delay args;
     arg_terminal := arg_terminal args;
     arg_verbose := arg_verbose args;
     arg_json := arg_json args |}.

(** Why the wait after attempt [i] raises [e]: the power of two does not
    convert to [float]; or the delay does not convert to nanoseconds; or
    the delay is negative. *)
Definition wait_raises (base_delay max_delay : Q) (i : Z) (e : exn) : Prop :=
  (e = OverflowError ∧ 1025 ≤ i)
  ∨ (i ≤ 1024
     ∧ ((e = OverflowError
         ∧ fits_timeout (backoff_delay i base_delay max_delay) = false)
        ∨ (e = ValueError
           ∧ fits_timeout (backoff_delay i base_delay max_delay) = true
           ∧ Qle_bool 0 (backoff_delay i base_delay max_delay) = false))).


(** ** Environments of the further examples *)


(** Every call runs into the timeout of [subprocess.run]. *)
Definition never_answers (n : nat) : proc_outcome := TimeoutExpired.

(** A file system with the one file [train.py]. *)
Definition one_file (path : string) : option string :=
  if String.eqb path "train.py" then Some "train_model()"%string else None.

(** [auto-retry.py --file train.py "print(1)"] *)
Definition file_args : Args :=
  {| arg_code := Some "print(1)"%string; arg_file := Some "train.py"%string;
     arg_max_retries := 3; arg_timeout := 300; arg_base_delay := 1;
     arg_terminal := false; arg_verbose := false; arg_json := false |}.

(** [auto-retry.py] *)
Definition no_args : Args :=
  {| arg_code := None; arg_file := None;
     arg_max_retries := 3; arg_timeout := 300; arg_base_delay := 1;
     arg_terminal := false; arg_verbose := false; arg_json := false |}.

(** [auto-retry.py --json --file train.py] *)
Definition json_file_args : Args :=
  {| arg_code := None; arg_file := Some "train.py"%string;
     arg_max_retries := 3; arg_timeout := 300; arg_base_delay := 1;
     arg_terminal := false; arg_verbose := false; arg_json := true |}.

(** The collaborator dies with a traceback instead of a JSON document. *)
Definition prints_a_traceback (n : nat) : proc_outcome :=
  Other_output "Traceback (most recent call last)" "Killed".

(** [auto-retry.py --file missing.py] *)
Definition missing_file_args : Args :=
  {| arg_code := None; arg_file := Some "missing.py"%string;
     arg_max_retries := 3; arg_timeout := 300; arg_base_delay := 1;
     arg_terminal := false; arg_verbose := false; arg_json := false |}.

(** * Properties *)

(** ** The classifier *)

Lemma in_transient (code : Z) :
  bool_decide (code ∈ TRANSIENT_ERROR_CODES)
  = (code =? 1101) || (code =? 1103) || (code =? 1105) || (code =? 1401)
    || (code =? 1402).
Proof.
  apply Bool.eq_iff_eq_true.
  rewrite bool_decide_eq_true, !Bool.orb_true_iff, !Z.eqb_eq.
  unfold TRANSIENT_ERROR_CODES. set_solver.
Qed.

Lemma in_resource (code : Z) :
  bool_decide (code ∈ RESOURCE_ERROR_CODES) = (code =? 1104) || (code =? 1204).
Proof.
  apply Bool.eq_iff_eq_true.
  rewrite bool_decide_eq_true, !Bool.orb_true_iff, !Z.eqb_eq.
  unfold RESOURCE_ERROR_CODES. set_solver.
Qed.

Lemma in_non_retryable (code : Z) :
  bool_decide (code ∈ NON_RETRYABLE_CODES)
  = (code =? 1001) || (code =? 1002) || (code =? 1003) || (code =? 1004)
    || (code =? 1201) || (code =? 1202) || (code =? 1205) || (code =? 1206).
Proof.
  apply Bool.eq_iff_eq_true.
  rewrite bool_decide_eq_true, !Bool.orb_true_iff, !Z.eqb_eq.
  unfold NON_RETRYABLE_CODES. set_solver.
Qed.

Lemma categorize_error_int (code : Z) :
  categorize_error (PInt code) = inr (classify code).
Proof.
  unfold categorize_error, classify, py_in, py_ge, ebind. simpl.
  rewrite in_transient, in_resource, in_non_retryable.
  destruct (_ || _); [reflexivity|].
  destruct (_ || _); [reflexivity|].
  destruct (_ || _); [|reflexivity].
  case_bool_decide; destruct (Z.leb_spec 1200 code); (reflexivity || lia).
Qed.

(** Only unhashable codes make the classifier raise, and then it is a
    [TypeError]. *)
Lemma categorize_error_hashable (v : pyval) :
  hashable v = true → ∃ category, categorize_error v = inr category.
Proof.
  intros H. unfold categorize_error, py_in. rewrite H. simpl.
  destruct (as_integer v) as [z|] eqn:Hz; [|eauto].
  destruct (bool_decide (z ∈ TRANSIENT_ERROR_CODES)); [eauto|].
  destruct (bool_decide (z ∈ RESOURCE_ERROR_CODES)); [eauto|].
  destruct (bool_decide (z ∈ NON_RETRYABLE_CODES)); [|eauto].
  destruct v; try discriminate; simpl; eauto.
Qed.

Lemma categorize_error_raises (v : pyval) (e : exn) :
  categorize_error v = inl e → e = TypeError.
Proof.
  destruct (hashable v) eqn:H.
  - destruct (categorize_error_hashable v H) as [c ->]. discriminate.
  - unfold categorize_error, py_in. rewrite H. simpl. congruence.
Qed.

(** C2. On every integer [categorize_error] returns, without raising, the
    category of the partition: 1101, 1103, 1105, 1401 and 1402 are
    transient; 1104 and 1204 are resource errors; of the non-retryable
    codes 1001-1004, 1201, 1202, 1205 and 1206 those from 1200 on are code
    errors and the others auth errors; every other integer, the timeout
    code 1203 and the decoding sentinel 0 among them, is unknown. *)
Theorem categorize_error_partition :
  (∀ code : Z, categorize_error (PInt code) = inr (classify code))
  ∧ categorize_error (PInt 1203) = inr UNKNOWN
  ∧ categorize_error (PInt 0) = inr UNKNOWN.
Proof.
  split; [exact categorize_error_int|].
  rewrite !categorize_error_int. split; reflexivity.
Qed.

(** ** The retry policy *)

Lemma should_retry_int (code attempt max_retries : Z) :
  should_retry (PInt code) attempt max_retries
  = inr (retry_rules (classify code) attempt max_retries).
Proof.
  unfold should_retry, retry_rules. rewrite categorize_error_int. simpl.
  case_bool_decide; destruct (Z.leb_spec max_retries attempt); try lia;
    [reflexivity|].
  destruct (classify code); simpl; try reflexivity.
  - case_bool_decide; destruct (Z.ltb_spec attempt 3); (reflexivity || lia).
  - case_bool_decide; destruct (Z.ltb_spec attempt 2); (reflexivity || lia).
Qed.

(** C1. For every integer code, attempt index and ceiling, [should_retry]
    returns what the ordered rules give for the category the code
    classifies as: false once the attempt index has reached the ceiling;
    below it, true for a transient code, [attempt < 3] for a resource
    code, [attempt < 2] for an unknown code, false for auth and code
    errors. *)
Theorem should_retry_follows_rules (code attempt max_retries : Z) :
  ∃ category,
    categorize_error (PInt code) = inr category
    ∧ should_retry (PInt code) attempt max_retries
      = inr (retry_rules category attempt max_retries).
Proof.
  exists (classify code). split.
  - apply categorize_error_int.
  - apply should_retry_int.
Qed.

Lemma should_retry_hashable (v : pyval) (attempt max_retries : Z) :
  hashable v = true → ∃ b, should_retry v attempt max_retries = inr b.
Proof.
  intros H. unfold should_retry.
  destruct (bool_decide _); [eauto|].
  destruct (categorize_error_hashable v H) as [c ->]. simpl.
  repeat (destruct (decide _); [eauto|]). eauto.
Qed.

Lemma should_retry_categorized (v : pyval) (attempt max_retries : Z) :
  should_retry v attempt max_retries = inr true →
  ∃ category, categorize_error v = inr category.
Proof.
  unfold should_retry. destruct (bool_decide _); [discriminate|].
  destruct (categorize_error v); [discriminate | eauto].
Qed.

Lemma should_retry_below (v : pyval) (attempt max_retries : Z) :
  should_retry v attempt max_retries = inr true → attempt < max_retries.
Proof.
  unfold should_retry. case_bool_decide; [discriminate | lia].
Qed.

Lemma should_retry_at_ceiling (v : pyval) (attempt max_retries : Z) :
  max_retries ≤ attempt → should_retry v attempt max_retries = inr false.
Proof.
  intros H. unfold should_retry. case_bool_decide; [reflexivity | lia].
Qed.

(** C10. Once [should_retry] has answered false for an attempt index it
    answers false for every later one, whatever the code and the ceiling:
    the indices at which a retry is allowed are downward-closed. The code
    is any value, an integer [PInt code] in particular. *)
Theorem retry_denial_is_permanent (code : pyval) (a b max_retries : Z) :
  a ≤ b →
  should_retry code a max_retries = inr false →
  should_retry code b max_retries = inr false.
Proof.
  unfold should_retry. intros Hab.
  destruct (bool_decide (a >= max_retries)) eqn:Ha;
    destruct (bool_decide (b >= max_retries)) eqn:Hb; try reflexivity.
  - apply bool_decide_eq_true in Ha. apply bool_decide_eq_false in Hb. lia.
  - apply bool_decide_eq_false in Ha, Hb.
    destruct (categorize_error code) as [e|c]; simpl; [discriminate|].
    destruct c; simpl; try discriminate; try reflexivity.
    all: repeat case_bool_decide; intros; try reflexivity;
      try discriminate; try lia.
Qed.

(** ** The backoff schedule *)

Lemma py_min_Qmin (a b : Q) : (py_min a b == Qmin a b)%Q.
Proof.
  apply Q.min_unicity. unfold py_min.
  destruct (Qcompare_spec b a) as [H|H|H].
  - right. split; [rewrite H; apply Qle_refl | symmetry; exact H].
  - right. split; [apply Qlt_le_weak; exact H | reflexivity].
  - left. split; [exact H | reflexivity].
Qed.

Lemma backoff_delay_delayFor (attempt : Z) (base_delay max_delay : Q) :
  1 ≤ attempt →
  (backoff_delay attempt base_delay max_delay
   == delayFor attempt base_delay max_delay)%Q.
Proof.
  intros H. unfold backoff_delay, delayFor.
  rewrite py_min_Qmin, Zpower_Qpower by lia. reflexivity.
Qed.

Lemma backoff_delay_nonneg (attempt : Z) (base_delay max_delay : Q) :
  (0 <= base_delay)%Q → (0 <= max_delay)%Q →
  Qle_bool 0 (backoff_delay attempt base_delay max_delay) = true.
Proof.
  intros Hb Hm. apply Qle_bool_iff. unfold backoff_delay, py_min.
  destruct (Qcompare _ _); try exact Hm.
  all: apply Qmult_le_0_compat; [exact Hb|];
    change 0%Q with (inject_Z 0); rewrite <- Zle_Qle; apply Z.pow_nonneg; lia.
Qed.

Lemma py_min_le_l (a b : Q) : (py_min a b <= a)%Q.
Proof.
  unfold py_min. destruct (Qcompare_spec b a) as [H|H|H].
  - apply Qle_refl.
  - apply Qlt_le_weak. exact H.
  - apply Qle_refl.
Qed.

Lemma py_min_le_r (a b : Q) : (py_min a b <= b)%Q.
Proof.
  unfold py_min. destruct (Qcompare_spec b a) as [H|H|H].
  - rewrite H. apply Qle_refl.
  - apply Qle_refl.
  - apply Qlt_le_weak. exact H.
Qed.

(** The power of two converts to [float] up to [2 ** 1023]. *)
Lemma float_of_int_power (k : Z) :
  float_of_int (2 ^ k)
  = if k <=? 1023 then inr (inject_Z (2 ^ k)) else inl OverflowError.
Proof.
  unfold float_of_int.
  assert (Hpos : 0 ≤ 2 ^ k) by (apply Z.pow_nonneg; lia).
  rewrite Z.abs_eq by exact Hpos.
  assert (Hmax : 2 ^ 1023 < 2 ^ 1024 - 2 ^ 970 ∧ 2 ^ 1024 - 2 ^ 970 < 2 ^ 1024)
    by (split; vm_compute; reflexivity).
  destruct (Z.leb_spec k 1023) as [Hk|Hk].
  - assert (H : 2 ^ k ≤ 2 ^ 1023).
    { destruct (Z.le_gt_cases 0 k) as [H0|H0].
      - apply Z.pow_le_mono_r; lia.
      - rewrite (Z.pow_neg_r 2 k) by lia. apply Z.pow_nonneg. lia. }
    destruct (Z.ltb_spec (2 ^ k) (2 ^ 1024 - 2 ^ 970)) as [Hlt|Hge];
      [reflexivity|].
    exfalso. apply (Z.lt_irrefl (2 ^ 1023)).
    eapply Z.lt_le_trans; [apply Hmax|]. eapply Z.le_trans; eassumption.
  - assert (H : 2 ^ 1024 ≤ 2 ^ k) by (apply Z.pow_le_mono_r; lia).
    destruct (Z.ltb_spec (2 ^ k) (2 ^ 1024 - 2 ^ 970)) as [Hlt|Hge];
      [|reflexivity].
    exfalso. apply (Z.lt_irrefl (2 ^ 1024)).
    eapply Z.le_lt_trans; [exact H|]. eapply Z.lt_trans; [exact Hlt|].
    apply Hmax.
Qed.

(** Line 203 arrives at the backoff delay up to attempt 1024 and raises
    from attempt 1025 on. *)
Lemma calculate_backoff_delay_cases (attempt : Z) (base_delay max_delay : Q) :
  calculate_backoff_delay attempt base_delay max_delay
  = if attempt <=? 1024 then inr (backoff_delay attempt base_delay max_delay)
    else inl OverflowError.
Proof.
  unfold calculate_backoff_delay. rewrite float_of_int_power.
  destruct (Z.leb_spec (attempt - 1) 1023); destruct (Z.leb_spec attempt 1024);
    try lia; reflexivity.
Qed.

(** A delay between 0 and a cap below the limit of [time.sleep] is one it
    sleeps for. *)
Lemma backoff_delay_accepted (attempt : Z) (base_delay max_delay : Q) :
  (0 <= base_delay)%Q → (0 <= max_delay)%Q → (max_delay < sleep_limit)%Q →
  fits_timeout (backoff_delay attempt base_delay max_delay) = true
  ∧ Qle_bool 0 (backoff_delay attempt base_delay max_delay) = true.
Proof.
  intros Hb Hm Hlimit.
  pose proof (backoff_delay_nonneg attempt base_delay max_delay Hb Hm) as H0.
  split; [|exact H0].
  apply Qle_bool_iff in H0. unfold fits_timeout.
  apply andb_true_intro. split.
  - apply Qle_bool_iff. eapply Qle_trans; [|exact H0].
    unfold Qle. simpl. lia.
  - destruct (Qle_bool sleep_limit _) eqn:Hle; [|reflexivity].
    apply Qle_bool_iff in Hle. exfalso.
    apply (Qlt_irrefl sleep_limit).
    eapply Qle_lt_trans; [exact Hle|].
    eapply Qle_lt_trans; [|exact Hlimit].
    apply py_min_le_r.
Qed.

(** ** Ranges *)

Lemma py_range_nil (lo hi : Z) : hi ≤ lo → py_range lo hi = [].
Proof.
  intros H. unfold py_range. replace (Z.to_nat (hi - lo)) with 0%nat by lia.
  reflexivity.
Qed.

Lemma py_range_cons (lo hi : Z) :
  lo < hi → py_range lo hi = lo :: py_range (lo + 1) hi.
Proof.
  intros H. unfold py_range.
  replace (Z.to_nat (hi - lo)) with (S (Z.to_nat (hi - (lo + 1)))) by lia.
  simpl. rewrite Z.add_0_r. f_equal.
  rewrite <- seq_shift, map_map. apply map_ext. intros i. lia.
Qed.

Lemma py_range_by_length (lo hi : Z) :
  py_range lo hi = py_range lo (lo + Z.of_nat (Z.to_nat (hi - lo))).
Proof.
  unfold py_range. do 2 f_equal. lia.
Qed.

Lemma without_progress_app (t u : list event) :
  without_progress (t ++ u) = without_progress t ++ without_progress u.
Proof. unfold without_progress. apply List.filter_app. Qed.

(** ** One iteration of the attempt loop *)

Ltac unfold_body :=
  unfold loop_body, run_on_colab, subprocess_run, when, print_stderr, emit,
    sleep, bind, lift, ret, raise, py_get; simpl.

Ltac decide_retry :=
  repeat
    match goal with
    | |- context [categorize_error ?c] =>
        let H := fresh "Hcat" in
        destruct (categorize_error c) eqn:H; simpl
    | |- context [should_retry ?c ?a ?m] =>
        let H := fresh "Hretry" in
        destruct (should_retry c a m) as [|[|]] eqn:H; simpl
    | |- context [calculate_backoff_delay ?a ?b ?m] =>
        let H := fresh "Hpower" in
        rewrite (calculate_backoff_delay_cases a b m);
        destruct (Z.leb_spec a 1024) as [H|H]; simpl
    | |- context [fits_timeout ?d] =>
        let H := fresh "Hfits" in
        destruct (fits_timeout d) eqn:H; simpl
    | |- context [Qle_bool ?x ?y] =>
        let H := fresh "Hdelay" in
        destruct (Qle_bool x y) eqn:H; simpl
    end.

Ltac same_events Htrace :=
  rewrite !without_progress_app, Htrace; simpl;
  rewrite ?app_nil_r, <- ?app_assoc; auto.

Section RunFacts.

Variables (env : nat → proc_outcome) (code : string) (max_retries : Z)
          (base_delay max_delay : Q) (timeout : Z) (kernel verbose : bool).

#[local] Abbreviation body :=
  (loop_body env code max_retries base_delay max_delay timeout kernel verbose).
#[local] Abbreviation loop :=
  (for_attempts env code max_retries base_delay max_delay timeout kernel
     verbose).
#[local] Abbreviation run :=
  (run_with_retry env code max_retries base_delay max_delay timeout kernel
     verbose).
#[local] Abbreviation no_locals :=
  {| last_error_code := PInt 0; last_error_message := PStr "";
     attempt_var := None |}.

Ltac read_response w :=
  let d := fresh "d" in
  let e := fresh "e" in
  destruct (colab_response (env (calls w))) as [| | | | | |d]; simpl;
  [..| destruct (truthy (default PNone (d !! "success"%string))); simpl;
       [| destruct (default (PDict ∅) (d !! "error"%string))
            as [| | | | | |e]; simpl ] ].

(** Every iteration calls the collaborator exactly once. *)
Lemma loop_body_calls (attempt : Z) (w : world) :
  calls (snd (body attempt w)) = S (calls w).
Proof.
  unfold_body. destruct verbose; simpl; read_response w; try reflexivity.
  all: decide_retry; reflexivity.
Qed.


Lemma loop_body_retry (attempt : Z) (w : world) (c m : pyval) :
  observe (colab_response (env (calls w))) = Fails c m →
  should_retry c attempt max_retries = inr true →
  attempt ≤ 1024 →
  sleep_accepts (backoff_delay attempt base_delay max_delay) = true →
  fst (body attempt w)
  = inr (Next {| last_error_code := c; last_error_message := m;
                 attempt_var := Some attempt |}).
Proof.
  unfold observe, sleep_accepts. unfold_body.
  destruct verbose; simpl; read_response w; intros H Hr Ha Hd;
    try discriminate; injection H as <- <-;
    apply andb_prop in Hd as [Hfits Hd].
  - destruct (should_retry_categorized _ _ _ Hr) as [cat ->]. simpl.
    rewrite Hr. simpl. rewrite calculate_backoff_delay_cases.
    destruct (Z.leb_spec attempt 1024); [|lia]. simpl.
    rewrite Hfits, Hd. reflexivity.
  - rewrite Hr. simpl. rewrite calculate_backoff_delay_cases.
    destruct (Z.leb_spec attempt 1024); [|lia]. simpl.
    rewrite Hfits, Hd. reflexivity.
Qed.


(** What each way of leaving the body says about the response. *)
Lemma loop_body_inv (attempt : Z) (w : world) (ctl : control) :
  fst (body attempt w) = inr ctl →
  match ctl with
  | Return r =>
      ∃ d, observe (colab_response (env (calls w))) = Succeeds d
           ∧ r = result_of_success d attempt
  | Next l =>
      ∃ c m, observe (colab_response (env (calls w))) = Fails c m
             ∧ l = {| last_error_code := c; last_error_message := m;
                      attempt_var := Some attempt |}
             ∧ should_retry c attempt max_retries = inr true
  | Break l =>
      ∃ c m, observe (colab_response (env (calls w))) = Fails c m
             ∧ l = {| last_error_code := c; last_error_message := m;
                      attempt_var := Some attempt |}
             ∧ should_retry c attempt max_retries = inr false
  end.
Proof.
  unfold observe, result_of_success. unfold_body.
  destruct verbose; simpl; read_response w; try discriminate.
  all: decide_retry; try discriminate.
  all: intros H; injection H as <-; eauto 10.
Qed.

(** An iteration that goes on to the next attempt has just slept for the
    backoff delay. *)
Lemma loop_body_sleeps (attempt : Z) (w : world) (l : locals) :
  fst (body attempt w) = inr (Next l) →
  ∃ t, trace (snd (body attempt w))
       = t ++ [Sleep (backoff_delay attempt base_delay max_delay)].
Proof.
  unfold_body. destruct verbose; simpl; read_response w; try discriminate.
  all: decide_retry; try discriminate.
  all: intros _; eexists; reflexivity.
Qed.

(** ** The loop *)

Lemma for_attempts_step (attempt : Z) (rest : list Z) (l : locals)
    (w : world) :
  loop (attempt :: rest) l w
  = match fst (body attempt w) with
    | inl e => (inl e, snd (body attempt w))
    | inr (Next l') => loop rest l' (snd (body attempt w))
    | inr (Break l') => (inr (inr l'), snd (body attempt w))
    | inr (Return r) => (inr (inl r), snd (body attempt w))
    end.
Proof.
  simpl. unfold bind.
  destruct (body attempt w) as [[e|[l'|l'|r]] w']; reflexivity.
Qed.

Lemma response_at (a : Z) (w : world) :
  Z.of_nat (calls w) = a - 1 →
  colab_response (env (calls w)) = attempt_response env a.
Proof.
  intros H. unfold attempt_response. rewrite <- H, Nat2Z.id. reflexivity.
Qed.

Lemma run_with_retry_after_loop (w : world) :
  snd (run w) = snd (loop (py_range 1 (max_retries + 1)) no_locals w)
  ∧ fst (run w)
    = match fst (loop (py_range 1 (max_retries + 1)) no_locals w) with
      | inl e => inl e
      | inr (inl r) => inr r
      | inr (inr l) =>
          match attempt_var l with
          | Some attempt =>
              inr (failure_result (last_error_code l) (last_error_message l)
                     attempt)
          | None => inl (UnboundLocalError "attempt")
          end
      end.
Proof.
  unfold run_with_retry, bind.
  destruct (loop _ _ w) as [[e|[r|l]] w']; simpl; auto.
  destruct (attempt_var l); auto.
Qed.

(** The loop calls the collaborator once at least, unless there is no
    attempt to make, and once per attempt at most. *)
Lemma for_attempts_calls (indices : list Z) :
  ∀ (l : locals) (w : world),
    (calls w + min 1 (length indices)
     ≤ calls (snd (loop indices l w))
     ≤ calls w + length indices)%nat.
Proof.
  induction indices as [|a rest IH]; intros l w; [simpl; lia|].
  rewrite for_attempts_step.
  pose proof (loop_body_calls a w) as Hcalls.
  destruct (fst (body a w)) as [e|[l'|l'|r]]; cbn -[Nat.min]; try lia.
  specialize (IH l' (snd (body a w))). lia.
Qed.

(** The loop passes over every attempt that fails and is retried, as long
    as the wait goes through. *)
Lemma for_attempts_retried (n : nat) :
  ∀ (a hi : Z) (l : locals) (w : world),
    Z.of_nat (calls w) = a - 1 →
    a + Z.of_nat n ≤ hi →
    (∀ i, a ≤ i < a + Z.of_nat n →
          i ≤ 1024
          ∧ sleep_accepts (backoff_delay i base_delay max_delay) = true
          ∧ ∃ c m, observe (attempt_response env i) = Fails c m
                   ∧ should_retry c i max_retries = inr true) →
    ∃ l' w', loop (py_range a hi) l w
             = loop (py_range (a + Z.of_nat n) hi) l' w'
             ∧ Z.of_nat (calls w') = a + Z.of_nat n - 1.
Proof.
  induction n as [|n IH]; intros a hi l w Hw Hhi Hretried.
  - exists l, w. rewrite Z.add_0_r. auto.
  - destruct (Hretried a) as (Ha & Hsleep & c & m & Hobs & Hretry); [lia|].
    rewrite <- (response_at a w Hw) in Hobs.
    rewrite py_range_cons, for_attempts_step by lia.
    rewrite (loop_body_retry a w c m Hobs Hretry Ha Hsleep).
    destruct (IH (a + 1) hi
                {| last_error_code := c; last_error_message := m;
                   attempt_var := Some a |}
                (snd (body a w))) as (l' & w' & Heq & Hcalls).
    + rewrite loop_body_calls. lia.
    + lia.
    + intros i Hi. apply Hretried. lia.
    + exists l', w'. rewrite Heq.
      replace (a + 1 + Z.of_nat n) with (a + Z.of_nat (S n)) in * by lia.
      auto.
Qed.

(** Waits that go through: attempts up to 1024, a non-negative base delay
    and a cap between 0 and the limit of [time.sleep]. *)
Lemma retried_and_waited (k : Z) :
  k ≤ 1025 →
  (0 <= base_delay)%Q → (0 <= max_delay)%Q → (max_delay < sleep_limit)%Q →
  (∀ i, 1 ≤ i < k →
        ∃ c m, observe (attempt_response env i) = Fails c m
               ∧ should_retry c i max_retries = inr true) →
  ∀ i, 1 ≤ i < 1 + Z.of_nat (Z.to_nat (k - 1)) →
       i ≤ 1024
       ∧ sleep_accepts (backoff_delay i base_delay max_delay) = true
       ∧ ∃ c m, observe (attempt_response env i) = Fails c m
                ∧ should_retry c i max_retries = inr true.
Proof.
  intros Hk Hb Hm Hlimit Hretried i Hi.
  destruct (backoff_delay_accepted i base_delay max_delay Hb Hm Hlimit)
    as [Hfits Hpos].
  split; [lia|]. split.
  - unfold sleep_accepts. rewrite Hfits, Hpos. reflexivity.
  - apply Hretried. lia.
Qed.

(** When the attempts before attempt [k] fail and are retried, the run
    makes a [k]-th call. *)
Lemma attempt_is_reached (k : Z) :
  1 ≤ k ≤ max_retries → k ≤ 1025 →
  (0 <= base_delay)%Q → (0 <= max_delay)%Q → (max_delay < sleep_limit)%Q →
  (∀ i, 1 ≤ i < k →
        ∃ c m, observe (attempt_response env i) = Fails c m
               ∧ should_retry c i max_retries = inr true) →
  k ≤ Z.of_nat (calls (snd (run world0))).
Proof.
  intros Hk Hbound Hb Hm Hlimit Hretried.
  destruct (for_attempts_retried (Z.to_nat (k - 1)) 1 (max_retries + 1)
              no_locals world0)
    as (l' & w' & Heq & Hcalls); try (simpl; lia).
  { apply retried_and_waited; assumption. }
  replace (1 + Z.of_nat (Z.to_nat (k - 1))) with k in * by lia.
  destruct (run_with_retry_after_loop world0) as [-> _].
  rewrite Heq, py_range_cons by lia.
  pose proof (for_attempts_calls (k :: py_range (k + 1) (max_retries + 1))
                l' w') as [Hlow _].
  simpl length in Hlow. lia.
Qed.


(** C6. With a budget below one attempt the loop never binds [attempt] and
    the [return] after it raises [UnboundLocalError] instead of returning
    a result. *)
Theorem no_attempt_raises (w : world) :
  max_retries ≤ 0 → run w = (inl (UnboundLocalError "attempt"), w).
Proof.
  intros H. unfold run_with_retry, bind.
  rewrite py_range_nil by lia. reflexivity.
Qed.

Lemma for_attempts_inv (n : nat) :
  ∀ (a : Z) (l : locals) (w : world) out w',
    Z.of_nat (calls w) = a - 1 →
    loop (py_range a (a + Z.of_nat n)) l w = (inr out, w') →
    match out with
    | inl r =>
        a ≤ attempts r
        ∧ attempts r = Z.of_nat (calls w')
        ∧ ∃ d, observe (attempt_response env (attempts r)) = Succeeds d
               ∧ r = result_of_success d (attempts r)
    | inr l' => (n = 0%nat ∧ l' = l ∧ w' = w) ∨ last_failure env l' w'
    end.
Proof.
  induction n as [|n IH]; intros a l w out w' Hw Hrun.
  - rewrite py_range_nil in Hrun by lia. injection Hrun as <- <-. auto.
  - rewrite py_range_cons, for_attempts_step in Hrun by lia.
    pose proof (loop_body_inv a w) as Hinv.
    pose proof (loop_body_calls a w) as Hcalls.
    destruct (fst (body a w)) as [e|[l1|l1|r]]; try discriminate.
    + destruct (Hinv _ eq_refl) as (c & m & Hobs & -> & Hretry).
      rewrite (response_at a w Hw) in Hobs.
      replace (a + Z.of_nat (S n)) with (a + 1 + Z.of_nat n) in Hrun by lia.
      apply IH in Hrun; [|lia].
      destruct out as [r|l'].
      * destruct Hrun as (? & ? & ?). repeat split; try assumption. lia.
      * destruct Hrun as [(_ & -> & ->)|?]; [|right; assumption].
        right. exists a. simpl. repeat split; try assumption; lia.
    + injection Hrun as <- <-.
      destruct (Hinv _ eq_refl) as (c & m & Hobs & -> & Hretry).
      rewrite (response_at a w Hw) in Hobs.
      right. exists a. simpl. repeat split; try assumption; lia.
    + injection Hrun as <- <-.
      destruct (Hinv _ eq_refl) as (d & Hobs & ->).
      rewrite (response_at a w Hw) in Hobs. simpl.
      repeat split; try lia. eauto.
Qed.



(** C7, as amended. Every result the run returns counts the attempts
    actually made, at least one. With [success=True] its error fields are
    [None]. With [success=False] its error code and message are the ones
    read from the response of the last attempt: the code defaults to 0 and
    the message to "Unknown error" when the response has none, and a
    message the response does carry is passed on as it is. *)
Theorem returned_result_invariant (r : ExecutionResult) :
  fst (run world0) = inr r →
  attempts r = Z.of_nat (calls (snd (run world0)))
  ∧ 1 ≤ attempts r
  ∧ (success r = true → error_code r = PNone ∧ error_message r = PNone)
  ∧ (success r = false →
     observe (attempt_response env (attempts r))
     = Fails (error_code r) (error_message r)).
Proof.
  destruct (run_with_retry_after_loop world0) as [-> ->].
  rewrite (py_range_by_length 1 (max_retries + 1)).
  destruct (loop _ _ world0) as [[e|out] w'] eqn:Hloop; [discriminate|].
  apply for_attempts_inv in Hloop; [|reflexivity].
  destruct out as [r'|l'].
  - simpl. intros H. injection H as <-.
    destruct Hloop as (Ha & Hcalls & d & Hd & Hr).
    repeat split; try assumption.
    + rewrite Hr. reflexivity.
    + rewrite Hr. reflexivity.
    + rewrite Hr. discriminate.
  - destruct Hloop as [(_ & -> & ->)|(a & Ha & Hcalls & Hpos & Hobs)];
      simpl; [discriminate|].
    rewrite Ha. simpl. intros H. injection H as <-. simpl.
    repeat split; try discriminate; try lia. intros _. exact Hobs.
Qed.

End RunFacts.

(** ** The first success and the last failure *)



(** ** The backoff delay of a run *)

(** C5. Up to attempt 1024 the delay line 203 computes is
    [min(b * 2^(a - 1), m)]: with base 1 and cap 60 it is 1 after attempt
    1, 8 after attempt 4 and 60 after attempt 10, and it is the length of
    the sleep that precedes the next attempt. From attempt 1025 on line
    203 computes no delay: the conversion of [2 ** (attempt - 1)] to
    [float] raises [OverflowError], whatever the base delay and the cap,
    and a run whose first 1025 attempts fail with code 1101 ends with that
    exception. *)
Theorem backoff_delay_formula :
  (∀ (attempt : Z) (base_delay max_delay : Q),
      1 ≤ attempt ≤ 1024 →
      ∃ delay,
        calculate_backoff_delay attempt base_delay max_delay = inr delay
        ∧ (delay == delayFor attempt base_delay max_delay)%Q)
  ∧ calculate_backoff_delay 1 1 60 = inr 1%Q
  ∧ calculate_backoff_delay 4 1 60 = inr 8%Q
  ∧ calculate_backoff_delay 10 1 60 = inr 60%Q
  ∧ (∀ env code max_retries base_delay max_delay timeout kernel verbose
       attempt w l,
        fst (loop_body env code max_retries base_delay max_delay timeout
               kernel verbose attempt w) = inr (Next l) →
        ∃ delay t,
          calculate_backoff_delay attempt base_delay max_delay = inr delay
          ∧ trace (snd (loop_body env code max_retries base_delay max_delay
                          timeout kernel verbose attempt w))
            = t ++ [Sleep delay])
  ∧ (∀ (attempt : Z) (base_delay max_delay : Q),
        1025 ≤ attempt →
        calculate_backoff_delay attempt base_delay max_delay
        = inl OverflowError)
  ∧ calculate_backoff_delay 1025 1 60 = inl OverflowError
  ∧ (let outcome :=
       run_with_retry always_times_out "print(2 + 2)" 1030 0 60 300 true
         false world0 in
     fst outcome = inl OverflowError ∧ calls (snd outcome) = 1025%nat).
Proof.
  split; [|split; [|split; [|split; [|split; [|split; [|split]]]]]].
  - intros attempt base_delay max_delay Ha.
    exists (backoff_delay attempt base_delay max_delay).
    rewrite calculate_backoff_delay_cases.
    destruct (Z.leb_spec attempt 1024); [|lia].
    split; [reflexivity|]. apply backoff_delay_delayFor. lia.
  - vm_compute. reflexivity.
  - vm_compute. reflexivity.
  - vm_compute. reflexivity.
  - intros env code max_retries base_delay max_delay timeout kernel verbose
      attempt w l Hnext.
    exists (backoff_delay attempt base_delay max_delay).
    destruct (loop_body_sleeps env code max_retries base_delay max_delay
                timeout kernel verbose attempt w l Hnext) as [t Ht].
    exists t. split; [|exact Ht].
    rewrite calculate_backoff_delay_cases.
    destruct (Z.leb_spec attempt 1024) as [Hle|Hgt]; [reflexivity|].
    exfalso. revert Hnext. unfold_body.
    destruct verbose; simpl;
      destruct (colab_response (env (calls w))) as [| | | | | |d]; simpl;
      try discriminate;
      destruct (truthy (default PNone (d !! "success"%string))); simpl;
      try discriminate;
      destruct (default (PDict ∅) (d !! "error"%string))
        as [| | | | | |e]; simpl; try discriminate.
    all: decide_retry; try discriminate; lia.
  - intros attempt base_delay max_delay Ha.
    rewrite calculate_backoff_delay_cases.
    destruct (Z.leb_spec attempt 1024); [lia | reflexivity].
  - vm_compute. reflexivity.
  - vm_compute. split; reflexivity.
Qed.

(** ** Progress reporting *)

Section Verbosity.

Variables (env : nat → proc_outcome) (code : string) (max_retries : Z)
          (base_delay max_delay : Q) (timeout : Z) (kernel : bool).

#[local] Abbreviation body :=
  (loop_body env code max_retries base_delay max_delay timeout kernel).
#[local] Abbreviation loop :=
  (for_attempts env code max_retries base_delay max_delay timeout kernel).
#[local] Abbreviation run :=
  (run_with_retry env code max_retries base_delay max_delay timeout kernel).

(** A verbose iteration does what the quiet one does, unless classifying
    the error code for the progress line raises. *)
Lemma loop_body_verbose_or_raise (attempt : Z) (wv wq : world) :
  alike wv wq →
  (fst (body true attempt wv) = fst (body false attempt wq)
   ∧ alike (snd (body true attempt wv)) (snd (body false attempt wq)))
  ∨ fst (body true attempt wv) = inl TypeError.
Proof.
  intros [Hcalls Htrace]. unfold alike. unfold_body. rewrite Hcalls.
  destruct (colab_response (env (calls wq))) as [| | | | | |d]; simpl;
    try solve [left; same_events Htrace].
  destruct (truthy (default PNone (d !! "success"%string))); simpl;
    try solve [left; same_events Htrace].
  destruct (default (PDict ∅) (d !! "error"%string)) as [| | | | | |e]; simpl;
    try solve [left; same_events Htrace].
  destruct (categorize_error _) as [x|cat] eqn:Hcat; simpl.
  - right. rewrite (categorize_error_raises _ _ Hcat). reflexivity.
  - left. decide_retry; same_events Htrace.
Qed.

Lemma loop_body_verbose (attempt : Z) (wv wq : world) :
  alike wv wq →
  (∀ c m, observe (colab_response (env (calls wq))) = Fails c m →
          hashable c = true) →
  fst (body true attempt wv) = fst (body false attempt wq)
  ∧ alike (snd (body true attempt wv)) (snd (body false attempt wq)).
Proof.
  intros [Hcalls Htrace]. unfold alike, observe. unfold_body. rewrite Hcalls.
  destruct (colab_response (env (calls wq))) as [| | | | | |d]; simpl;
    try solve [intros _; same_events Htrace].
  destruct (truthy (default PNone (d !! "success"%string))); simpl;
    try solve [intros _; same_events Htrace].
  destruct (default (PDict ∅) (d !! "error"%string)) as [| | | | | |e]; simpl;
    try solve [intros _; same_events Htrace].
  intros Hhash.
  destruct (categorize_error_hashable _ (Hhash _ _ eq_refl)) as [cat ->].
  simpl. decide_retry; same_events Htrace.
Qed.

Lemma for_attempts_verbose_or_raise (indices : list Z) :
  ∀ (l : locals) (wv wq : world),
    alike wv wq →
    (fst (loop true indices l wv) = fst (loop false indices l wq)
     ∧ alike (snd (loop true indices l wv)) (snd (loop false indices l wq)))
    ∨ fst (loop true indices l wv) = inl TypeError.
Proof.
  induction indices as [|a rest IH]; intros l wv wq Halike; [left; auto|].
  rewrite !for_attempts_step.
  destruct (loop_body_verbose_or_raise a wv wq Halike) as [[-> Hsnd]| ->];
    [|right; reflexivity].
  destruct (fst (body false a wq)) as [e|[l'|l'|r]]; simpl; auto.
Qed.

Lemma for_attempts_verbose (indices : list Z) :
  ∀ (l : locals) (wv wq : world),
    alike wv wq →
    (∀ n c m, observe (colab_response (env n)) = Fails c m →
              hashable c = true) →
    fst (loop true indices l wv) = fst (loop false indices l wq)
    ∧ alike (snd (loop true indices l wv)) (snd (loop false indices l wq)).
Proof.
  induction indices as [|a rest IH]; intros l wv wq Halike Hhash; [auto|].
  rewrite !for_attempts_step.
  destruct (loop_body_verbose a wv wq Halike (Hhash _)) as [-> Hsnd].
  destruct (fst (body false a wq)) as [e|[l'|l'|r]]; simpl; auto.
Qed.

(** A quiet run reports no progress. *)
Lemma quiet_body_trace (attempt : Z) (w : world) :
  without_progress (trace w) = trace w →
  without_progress (trace (snd (body false attempt w)))
  = trace (snd (body false attempt w)).
Proof.
  intros Htrace. unfold_body.
  destruct (colab_response (env (calls w))) as [| | | | | |d]; simpl;
    try solve [same_events Htrace].
  destruct (truthy (default PNone (d !! "success"%string))); simpl;
    try solve [same_events Htrace].
  destruct (default (PDict ∅) (d !! "error"%string)) as [| | | | | |e]; simpl;
    try solve [same_events Htrace].
  decide_retry; same_events Htrace.
Qed.

Lemma quiet_loop_trace (indices : list Z) :
  ∀ (l : locals) (w : world),
    without_progress (trace w) = trace w →
    without_progress (trace (snd (loop false indices l w)))
    = trace (snd (loop false indices l w)).
Proof.
  induction indices as [|a rest IH]; intros l w Htrace; [exact Htrace|].
  rewrite for_attempts_step.
  pose proof (quiet_body_trace a w Htrace) as Hbody.
  destruct (fst (body false a w)) as [e|[l'|l'|r]]; simpl; auto.
Qed.

(** C9, as amended. When the error codes of the failed attempts are
    hashable, as numbers, strings, booleans and [None] are, two runs that
    differ in [verbose] only end the same way - same result or same
    exception, same number of calls - and the trace of the verbose run is
    the trace of the quiet run with progress lines added. Whatever the
    codes, every result a verbose run returns is the result the quiet run
    returns on the same inputs and environment. *)
Theorem progress_reporting_is_additive :
  (∀ r, fst (run true world0) = inr r → fst (run false world0) = inr r)
  ∧ ((∀ i c m, observe (attempt_response env i) = Fails c m →
               hashable c = true) →
     fst (run true world0) = fst (run false world0)
     ∧ calls (snd (run true world0)) = calls (snd (run false world0))
     ∧ without_progress (trace (snd (run true world0)))
       = trace (snd (run false world0))).
Proof.
  assert (Hstart : alike world0 world0) by (split; reflexivity).
  split.
  - intros r.
    destruct (run_with_retry_after_loop env code max_retries base_delay
                max_delay timeout kernel true world0) as [_ ->].
    destruct (run_with_retry_after_loop env code max_retries base_delay
                max_delay timeout kernel false world0) as [_ ->].
    destruct (for_attempts_verbose_or_raise
                (py_range 1 (max_retries + 1))
                {| last_error_code := PInt 0; last_error_message := PStr "";
                   attempt_var := None |} world0 world0 Hstart)
      as [[-> _]| ->]; [auto | discriminate].
  - intros Hhash.
    destruct (run_with_retry_after_loop env code max_retries base_delay
                max_delay timeout kernel true world0) as [-> ->].
    destruct (run_with_retry_after_loop env code max_retries base_delay
                max_delay timeout kernel false world0) as [-> ->].
    destruct (for_attempts_verbose
                (py_range 1 (max_retries + 1))
                {| last_error_code := PInt 0; last_error_message := PStr "";
                   attempt_var := None |} world0 world0 Hstart)
      as (-> & Hcalls & Htrace).
    { intros n c m H. apply (Hhash (Z.of_nat n + 1) c m).
      unfold attempt_response.
      replace (Z.to_nat (Z.of_nat n + 1 - 1)) with n by lia. exact H. }
    repeat split; try assumption.
    rewrite Htrace. apply quiet_loop_trace. reflexivity.
Qed.

End Verbosity.

(** ** The exit status *)

Section MainFacts.

Variables (env : nat → proc_outcome) (files : string → option string).

(** C8. With [--json] the script prints the result and returns from
    [main]: the exit status is 0 whatever the result, a failure
    included. *)
Theorem json_mode_exit_status (args : Args) (r : ExecutionResult) :
  arg_json args = true →
  given (arg_file args) = false →
  given (arg_code args) = true →
  fst (run_with_retry env (default ""%string (arg_code args))
         (arg_max_retries args) (arg_base_delay args) 60 (arg_timeout args)
         (negb (arg_terminal args)) (arg_verbose args) world0) = inr r →
  exit_status env files args = 0.
Proof.
  intros Hjson Hfile Hcode Hrun.
  unfold exit_status, main, bind. rewrite Hfile, Hcode. simpl.
  destruct (run_with_retry _ _ _ _ _ _ _ _ _) as [out w].
  simpl in Hrun. subst out. rewrite Hjson. reflexivity.
Qed.

(** Without [--json] a failure ends in [sys.exit(1)]. *)
Lemma text_mode_failure_exit_status (args : Args) (r : ExecutionResult) :
  arg_json args = false →
  given (arg_file args) = false →
  given (arg_code args) = true →
  fst (run_with_retry env (default ""%string (arg_code args))
         (arg_max_retries args) (arg_base_delay args) 60 (arg_timeout args)
         (negb (arg_terminal args)) (arg_verbose args) world0) = inr r →
  success r = false →
  exit_status env files args = 1.
Proof.
  intros Hjson Hfile Hcode Hrun Hfail.
  unfold exit_status, main, bind. rewrite Hfile, Hcode. simpl.
  destruct (run_with_retry _ _ _ _ _ _ _ _ _) as [out w].
  simpl in Hrun. subst out. rewrite Hjson, Hfail.
  destruct (arg_verbose args); reflexivity.
Qed.

End MainFacts.

(** ** The properties at concrete inputs *)

(** A resource error denied at attempt 3 stays denied at attempt 7. *)
Lemma retry_denial_is_permanent_witness :
  should_retry (PInt 1104) 3 10 = inr false
  ∧ should_retry (PInt 1104) 7 10 = inr false.
Proof.
  assert (H : should_retry (PInt 1104) 3 10 = inr false)
    by (vm_compute; reflexivity).
  split; [exact H|].
  apply (retry_denial_is_permanent (PInt 1104) 3 7 10); [lia | exact H].
Defined.

(** Attempt 2000 has no delay. *)
Lemma backoff_delay_formula_witness :
  calculate_backoff_delay 2000 (1 # 2) 60 = inl OverflowError.
Proof.
  apply (proj1 (proj2 (proj2 (proj2 (proj2 (proj2 backoff_delay_formula)))))
           2000 (1 # 2) 60%Q).
  lia.
Defined.

Lemma third_time_lucky_retried (i : Z) :
  1 ≤ i < 3 →
  ∃ c m, observe (attempt_response third_time_lucky i) = Fails c m
         ∧ should_retry c i 5 = inr true.
Proof.
  intros Hi. exists (PInt 1101), (PStr "Connection timeout").
  assert (Hcases : i = 1 ∨ i = 2) by lia.
  destruct Hcases as [-> | ->]; split; vm_compute; reflexivity.
Defined.

(** Two failures with code 1101, then success, under a budget of 5: the
    third attempt is reached, and the run returns its success. *)
Example third_attempt_is_reached :
  3 ≤ Z.of_nat (calls (snd (run_with_retry third_time_lucky "print(2 + 2)" 5
                              1 60 300 true false world0))).
Proof.
  apply (attempt_is_reached third_time_lucky "print(2 + 2)" 5 1 60 300 true
           false 3).
  - lia.
  - lia.
  - unfold Qle. simpl. lia.
  - unfold Qle. simpl. lia.
  - reflexivity.
  - exact third_time_lucky_retried.
Qed.




(** The budget is exhausted at attempt 3 and the error is the third
    attempt's. *)
Example exhausted_budget :
  fst (run_with_retry always_times_out "print(2 + 2)" 3 1 60 300 true false
         world0)
  = inr (failure_result (PInt 1101) (PStr "Connection timeout 3") 3).
Proof. vm_compute. reflexivity. Qed.

(** An auth error is not retried, whatever budget remains. *)
Example auth_failure_stops_at_once :
  run_with_retry never_authenticated "print(2 + 2)" 5 1 60 300 true false
    world0
  = (inr (failure_result (PInt 1001) (PStr "Not authenticated") 1),
     {| calls := 1;
        trace := [Subprocess_run
                    ["lecoder-cgpu"; "run"; "--json"; "--kernel"; "--timeout";
                     "300"; "print(2 + 2)"]%string 330] |}).
Proof. vm_compute. reflexivity. Qed.

(** [--max-retries 0] *)
Lemma no_attempt_raises_witness :
  run_with_retry third_time_lucky "print(2 + 2)" 0 1 60 300 true false world0
  = (inl (UnboundLocalError "attempt"), world0).
Proof.
  apply (no_attempt_raises third_time_lucky "print(2 + 2)" 0 1 60 300 true
           false world0).
  lia.
Defined.

(** Other ways for the run to raise: a negative delay and a delay of
    [1e10] seconds are refused by [time.sleep], and a response that is
    not a dict has no [get]. *)
Example negative_delay_raises :
  fst (run_with_retry always_times_out "print(2 + 2)" 3 (-1) 60 300 true
         false world0)
  = inl ValueError.
Proof. vm_compute. reflexivity. Qed.

Example too_long_a_delay_raises :
  fst (run_with_retry always_times_out "print(2 + 2)" 3 10000000000
         10000000000 300 true false world0)
  = inl OverflowError.
Proof. vm_compute. reflexivity. Qed.

Example null_response_raises :
  fst (run_with_retry answers_null "print(2 + 2)" 3 1 60 300 true false
         world0)
  = inl AttributeError.
Proof. vm_compute. reflexivity. Qed.


(** C9, as stated, fails: two runs that differ in [verbose] only and do
    not end alike. The one failure carries the JSON array [[]] as its
    error code; the quiet run returns that failure, the verbose run raises
    [TypeError] while classifying the code for its progress line. *)
Lemma unhashable_code_raises_when_verbose :
  fst (run_with_retry code_is_a_list "print(2 + 2)" 1 1 60 300 true false
         world0)
  = inr {| success := false; result := PNone; stdout := PStr "";
           stderr := PStr ""; execution_time := PFloat 0;
           error_code := PList [];
           error_message := PStr "Not authenticated"; attempts := 1 |}
  ∧ fst (run_with_retry code_is_a_list "print(2 + 2)" 1 1 60 300 true true
           world0)
    = inl TypeError.
Proof. vm_compute. split; reflexivity. Qed.

(** C7, as stated, fails: a failure whose response carries the empty
    message is returned with that empty message. *)
Lemma empty_error_message :
  fst (run_with_retry silent_failure "print(2 + 2)" 3 1 60 300 true false
         world0)
  = inr (failure_result (PInt 1001) (PStr "") 1)
  ∧ success (failure_result (PInt 1001) (PStr "") 1) = false
  ∧ nonempty_text (error_message (failure_result (PInt 1001) (PStr "") 1))
    = false.
Proof. vm_compute. repeat split; reflexivity. Qed.

Lemma returned_result_invariant_witness :
  attempts (failure_result (PInt 1001) (PStr "") 1)
  = Z.of_nat (calls (snd (run_with_retry silent_failure "print(2 + 2)" 3 1 60
                            300 true false world0)))
  ∧ 1 ≤ attempts (failure_result (PInt 1001) (PStr "") 1)
  ∧ (success (failure_result (PInt 1001) (PStr "") 1) = true →
     error_code (failure_result (PInt 1001) (PStr "") 1) = PNone
     ∧ error_message (failure_result (PInt 1001) (PStr "") 1) = PNone)
  ∧ (success (failure_result (PInt 1001) (PStr "") 1) = false →
     observe (attempt_response silent_failure
                (attempts (failure_result (PInt 1001) (PStr "") 1)))
     = Fails (error_code (failure_result (PInt 1001) (PStr "") 1))
             (error_message (failure_result (PInt 1001) (PStr "") 1))).
Proof.
  apply (returned_result_invariant silent_failure "print(2 + 2)" 3 1 60 300
           true false (failure_result (PInt 1001) (PStr "") 1)).
  vm_compute. reflexivity.
Defined.

(** [auto-retry.py --json --max-retries 1 "print(1)"] against a
    collaborator that reports an auth error exits with status 0. *)
Lemma json_mode_exit_status_witness :
  success (failure_result (PInt 1001) (PStr "Not authenticated") 1) = false
  ∧ exit_status never_authenticated no_files json_args = 0.
Proof.
  split; [reflexivity|].
  apply (json_mode_exit_status never_authenticated no_files json_args
           (failure_result (PInt 1001) (PStr "Not authenticated") 1)).
  - reflexivity.
  - reflexivity.
  - reflexivity.
  - vm_compute. reflexivity.
Defined.

Lemma third_time_lucky_hashable (i : Z) (c m : pyval) :
  observe (attempt_response third_time_lucky i) = Fails c m →
  hashable c = true.
Proof.
  unfold attempt_response.
  destruct (Z.to_nat (i - 1)) as [|[|n]]; vm_compute; intros H;
    try discriminate; injection H as <- _; reflexivity.
Defined.

Lemma progress_reporting_is_additive_witness :
  fst (run_with_retry third_time_lucky "print(2 + 2)" 5 1 60 300 true true
         world0)
  = fst (run_with_retry third_time_lucky "print(2 + 2)" 5 1 60 300 true false
           world0)
  ∧ calls (snd (run_with_retry third_time_lucky "print(2 + 2)" 5 1 60 300
                  true true world0))
    = calls (snd (run_with_retry third_time_lucky "print(2 + 2)" 5 1 60 300
                    true false world0))
  ∧ without_progress
      (trace (snd (run_with_retry third_time_lucky "print(2 + 2)" 5 1 60 300
                     true true world0)))
    = trace (snd (run_with_retry third_time_lucky "print(2 + 2)" 5 1 60 300
                    true false world0)).
Proof.
  apply (proj2 (progress_reporting_is_additive third_time_lucky
                  "print(2 + 2)" 5 1 60 300 true)).
  exact third_time_lucky_hashable.
Defined.

(** * Further properties *)

(** ** The failures [run_on_colab] makes up *)


(** The document of a result, read the way the loop reads a response. *)
Lemma json_document_reads_back (r : ExecutionResult) :
  observe (PDict (json_document r))
  = if success r then Succeeds (json_document r)
    else Fails (error_code r) (error_message r).
Proof.
  unfold json_document, observe. destruct (success r); reflexivity.
Qed.

(** ** More on the backoff schedule *)

Lemma py_min_mono_l (a a' b : Q) : (a <= a')%Q → (py_min a b <= py_min a' b)%Q.
Proof.
  intros H. rewrite !py_min_Qmin. apply Q.min_le_compat_r. exact H.
Qed.

(** X1. The backoff delay never exceeds the cap, and for a non-negative
    base delay it never shrinks from one attempt to the next. *)
Theorem backoff_delay_capped_and_monotone
    (a b : Z) (base_delay max_delay : Q) :
  (backoff_delay a base_delay max_delay <= max_delay)%Q
  ∧ ((0 <= base_delay)%Q → 1 ≤ a ≤ b →
     (backoff_delay a base_delay max_delay
      <= backoff_delay b base_delay max_delay)%Q).
Proof.
  split; [apply py_min_le_r|].
  intros Hbase Hab. unfold backoff_delay. apply py_min_mono_l.
  rewrite !(Qmult_comm base_delay).
  apply Qmult_le_compat_r; [|exact Hbase].
  rewrite <- Zle_Qle. apply Z.pow_le_mono_r; lia.
Qed.

(** ** Where the policy raises *)

Lemma categorize_error_unhashable (v : pyval) :
  hashable v = false → categorize_error v = inl TypeError.
Proof.
  intros H. unfold categorize_error, py_in. rewrite H. reflexivity.
Qed.

Lemma categorize_error_raises_unhashable (v : pyval) (e : exn) :
  categorize_error v = inl e → e = TypeError ∧ hashable v = false.
Proof.
  intros H. split; [exact (categorize_error_raises v e H)|].
  destruct (hashable v) eqn:Hh; [|reflexivity].
  destruct (categorize_error_hashable v Hh) as [c Hc]. congruence.
Qed.

(** X2. [should_retry] raises exactly when the error code is unhashable (a
    list or a dict) and the attempt is below the ceiling, and what it
    raises is [TypeError]; at the ceiling and above it answers false
    without looking at the code. *)
Theorem should_retry_raises_iff (v : pyval) (attempt max_retries : Z) :
  (∀ e, should_retry v attempt max_retries = inl e → e = TypeError)
  ∧ ((∃ e, should_retry v attempt max_retries = inl e)
     ↔ hashable v = false ∧ attempt < max_retries)
  ∧ (max_retries ≤ attempt → should_retry v attempt max_retries = inr false).
Proof.
  split; [|split; [|apply should_retry_at_ceiling]];
    unfold should_retry; case_bool_decide as Hceil.
  - discriminate.
  - destruct (categorize_error v) as [x|c] eqn:Hc; simpl.
    + destruct (categorize_error_raises_unhashable v x Hc) as [-> Hh].
      congruence.
    + intros e. repeat (destruct (decide _)); discriminate.
  - split.
    + intros [e He]. discriminate.
    + intros [_ Hlt]. lia.
  - destruct (categorize_error v) as [x|c] eqn:Hc; simpl.
    + destruct (categorize_error_raises_unhashable v x Hc) as [-> Hh].
      split; [intros _; split; [exact Hh | lia]|]. intros _. eauto.
    + assert (Hh : hashable v = true).
      { destruct (hashable v) eqn:Hh; [reflexivity|].
        rewrite (categorize_error_unhashable v Hh) in Hc. discriminate. }
      split.
      * intros [e He]. repeat (destruct (decide _)); discriminate.
      * intros [Hf _]. congruence.
Qed.

Lemma should_retry_raises (v : pyval) (attempt max_retries : Z) (e : exn) :
  should_retry v attempt max_retries = inl e →
  e = TypeError ∧ hashable v = false.
Proof.
  unfold should_retry. case_bool_decide as Hceil; [discriminate|].
  destruct (categorize_error v) as [x|c] eqn:Hc; simpl.
  - intros Hx. injection Hx as <-.
    exact (categorize_error_raises_unhashable v x Hc).
  - repeat (destruct (decide _)); discriminate.
Qed.


(** ** More on one iteration *)

Ltac read_reply env w :=
  let d := fresh "d" in
  let e := fresh "e" in
  destruct (colab_response (env (calls w))) as [| | | | | |d]; simpl;
  [..| destruct (truthy (default PNone (d !! "success"%string))); simpl;
       [| destruct (default (PDict ∅) (d !! "error"%string))
            as [| | | | | |e]; simpl ] ].

Section RunMore.

Variables (env : nat → proc_outcome) (code : string) (max_retries : Z)
          (base_delay max_delay : Q) (timeout : Z) (kernel verbose : bool).

#[local] Abbreviation body :=
  (loop_body env code max_retries base_delay max_delay timeout kernel verbose).
#[local] Abbreviation loop :=
  (for_attempts env code max_retries base_delay max_delay timeout kernel
     verbose).
#[local] Abbreviation run :=
  (run_with_retry env code max_retries base_delay max_delay timeout kernel
     verbose).
#[local] Abbreviation no_locals :=
  {| last_error_code := PInt 0; last_error_message := PStr "";
     attempt_var := None |}.
#[local] Abbreviation call :=
  (Subprocess_run (command_line code timeout kernel) (timeout + 30)).

(** What an iteration adds to the trace, progress reporting apart. *)
Lemma loop_body_trace (attempt : Z) (w : world) :
  without_progress (trace (snd (body attempt w)))
  = without_progress (trace w)
    ++ call :: match fst (body attempt w) with
               | inr (Next _) =>
                   [Sleep (backoff_delay attempt base_delay max_delay)]
               | _ => []
               end.
Proof.
  unfold command_line. unfold_body.
  destruct verbose; simpl; read_reply env w; decide_retry;
    rewrite !without_progress_app; simpl;
    rewrite ?app_nil_r, <- ?app_assoc; reflexivity.
Qed.

Lemma loop_body_sleep_within (attempt : Z) (w : world) :
  Forall (sleep_within max_delay) (trace w) →
  Forall (sleep_within max_delay) (trace (snd (body attempt w))).
Proof.
  intros Hw. unfold_body.
  destruct verbose; simpl; read_reply env w; decide_retry;
    rewrite ?Forall_app; repeat split; try assumption;
    repeat constructor.
  all: try (apply Qle_bool_iff; assumption).
  all: apply py_min_le_r.
Qed.

(** Why an iteration raises. *)
Lemma loop_body_raises (attempt : Z) (w : world) (e : exn) :
  fst (body attempt w) = inl e →
  (e = AttributeError
   ∧ observe (colab_response (env (calls w))) = Malformed)
  ∨ ∃ c m,
      observe (colab_response (env (calls w))) = Fails c m
      ∧ ((e = TypeError ∧ hashable c = false)
         ∨ (should_retry c attempt max_retries = inr true
            ∧ wait_raises base_delay max_delay attempt e)).
Proof.
  unfold observe, wait_raises. unfold_body.
  destruct verbose; simpl; read_reply env w; decide_retry;
    intros H; try discriminate; injection H as <-; auto.
  all: right; eexists _, _; split; [reflexivity|].
  all: try (left; eapply categorize_error_raises_unhashable; eassumption).
  all: try (left; eapply should_retry_raises; eassumption).
  all: right; split; [assumption|].
  all: first [ left; split; [reflexivity | lia]
             | right; split; [lia|]; auto ].
Qed.

(** ** More on the loop *)

Lemma py_range_length (lo hi : Z) : length (py_range lo hi) = Z.to_nat (hi - lo).
Proof. unfold py_range. rewrite length_map, length_seq. reflexivity. Qed.

(** X3. Whatever the collaborator answers and however the run ends, by a
    result or by an exception, the collaborator is called at most
    [max_retries] times, and at least once when [max_retries >= 1]. *)
Theorem number_of_calls_bounded :
  Z.of_nat (calls (snd (run world0))) ≤ Z.max 0 max_retries
  ∧ (1 ≤ max_retries → 1 ≤ Z.of_nat (calls (snd (run world0)))).
Proof.
  destruct (run_with_retry_after_loop env code max_retries base_delay
              max_delay timeout kernel verbose world0) as [-> _].
  pose proof (for_attempts_calls env code max_retries base_delay max_delay
                timeout kernel verbose (py_range 1 (max_retries + 1))
                no_locals world0) as H.
  rewrite py_range_length in H. change (calls world0) with 0%nat in H.
  split; lia.
Qed.

Lemma for_attempts_sleep_within (indices : list Z) :
  ∀ (l : locals) (w : world),
    Forall (sleep_within max_delay) (trace w) →
    Forall (sleep_within max_delay) (trace (snd (loop indices l w))).
Proof.
  induction indices as [|a rest IH]; intros l w Hw; [exact Hw|].
  rewrite for_attempts_step.
  pose proof (loop_body_sleep_within a w Hw) as Hbody.
  destruct (fst (body a w)) as [e|[l'|l'|r]]; simpl; auto.
Qed.

Lemma run_sleep_within (w : world) :
  Forall (sleep_within max_delay) (trace w) →
  Forall (sleep_within max_delay) (trace (snd (run w))).
Proof.
  intros Hw.
  destruct (run_with_retry_after_loop env code max_retries base_delay
              max_delay timeout kernel verbose w) as [-> _].
  apply for_attempts_sleep_within. exact Hw.
Qed.

(** X4. A run never sleeps for a negative time nor for longer than
    [max_delay], whatever the base delay, the responses and the way the
    run ends. *)
Theorem sleeps_are_capped :
  Forall (sleep_within max_delay) (trace (snd (run world0))).
Proof. apply run_sleep_within. constructor. Qed.

Lemma for_attempts_schedule (n : nat) :
  ∀ (a : Z) (l : locals) (w : world),
    Z.of_nat (calls w) = a - 1 →
    max_retries + 1 - a = Z.of_nat (S n) →
    without_progress
      (trace (snd (loop (py_range a (max_retries + 1)) l w)))
    = without_progress (trace w)
      ++ flat_map
           (fun i => [call; Sleep (backoff_delay i base_delay max_delay)])
           (py_range a
              (Z.of_nat
                 (calls (snd (loop (py_range a (max_retries + 1)) l w)))))
      ++ [call].
Proof.
  induction n as [|n IH]; intros a l w Hw Hn;
    rewrite py_range_cons, for_attempts_step by lia;
    pose proof (loop_body_trace a w) as Htrace;
    pose proof (loop_body_calls env code max_retries base_delay max_delay
                  timeout kernel verbose a w) as Hcalls;
    pose proof (loop_body_inv env code max_retries base_delay max_delay
                  timeout kernel verbose a w) as Hinv;
    destruct (fst (body a w)) as [e|[l1|l1|r]]; simpl;
    try (rewrite Htrace, py_range_nil by lia; reflexivity).
  - destruct (Hinv _ eq_refl) as (c & m & _ & _ & Hretry).
    apply should_retry_below in Hretry. lia.
  - destruct (for_attempts_calls env code max_retries base_delay max_delay
                timeout kernel verbose (py_range (a + 1) (max_retries + 1))
                l1 (snd (body a w))) as [Hlow _].
    rewrite py_range_length in Hlow.
    rewrite (IH (a + 1) l1 (snd (body a w))) by lia.
    rewrite Htrace.
    rewrite (py_range_cons a) by lia.
    simpl. rewrite <- !app_assoc. reflexivity.
Qed.

(** X5. Progress reporting apart, a run of [k] calls does this and nothing
    else: it calls the collaborator [k] times with one and the same
    command line and the timeout plus 30 seconds, and between two
    consecutive calls it sleeps once, for the backoff delay of the attempt
    just made; it does not sleep after its last call. This holds however
    the run ends, by a result or by an exception. *)
Theorem run_follows_schedule :
  1 ≤ max_retries →
  without_progress (trace (snd (run world0)))
  = schedule (command_line code timeout kernel) (timeout + 30) base_delay
      max_delay (Z.of_nat (calls (snd (run world0)))).
Proof.
  intros Hmax.
  destruct (run_with_retry_after_loop env code max_retries base_delay
              max_delay timeout kernel verbose world0) as [-> _].
  rewrite (for_attempts_schedule (Z.to_nat (max_retries - 1)) 1 no_locals
             world0) by (simpl; lia).
  reflexivity.
Qed.

(** ** How a run can raise *)




(** X8. A failure result carries nothing but the error and the attempt
    count: its [result] is [None], its [stdout] and [stderr] are empty
    and its [execution_time] is 0.0, the defaults of the dataclass,
    whatever the failed response held. *)
Theorem failure_result_has_no_payload (r : ExecutionResult) :
  fst (run world0) = inr r →
  success r = false →
  result r = PNone
  ∧ stdout r = PStr ""
  ∧ stderr r = PStr ""
  ∧ execution_time r = PFloat 0.
Proof.
  destruct (run_with_retry_after_loop env code max_retries base_delay
              max_delay timeout kernel verbose world0) as [_ ->].
  rewrite (py_range_by_length 1 (max_retries + 1)).
  destruct (loop _ no_locals world0) as [[x|[r'|l]] w'] eqn:Hloop; simpl;
    try discriminate.
  - apply for_attempts_inv in Hloop; [|reflexivity].
    destruct Hloop as (_ & _ & d & _ & Hr).
    intros H. injection H as <-. rewrite Hr. discriminate.
  - destruct (attempt_var l); [|discriminate].
    intros H _. injection H as <-. repeat split; reflexivity.
Qed.

(** ** Runs whose failures are all of one category *)








(** ** What a run hands to its caller *)

Lemma returned_success_shape (r : ExecutionResult) :
  fst (run world0) = inr r →
  success r = true →
  r = success_result (result r) (stdout r) (stderr r) (execution_time r)
        (attempts r).
Proof.
  destruct (run_with_retry_after_loop env code max_retries base_delay
              max_delay timeout kernel verbose world0) as [_ ->].
  rewrite (py_range_by_length 1 (max_retries + 1)).
  destruct (loop _ no_locals world0) as [[x|[r'|l]] w'] eqn:Hloop; simpl;
    try discriminate.
  - apply for_attempts_inv in Hloop; [|reflexivity].
    destruct Hloop as (_ & _ & d & _ & Hr).
    intros H. injection H as <-. rewrite Hr. reflexivity.
  - destruct (attempt_var l); [|discriminate].
    intros H. injection H as <-. discriminate.
Qed.

Lemma loop_body_no_exit (attempt : Z) (w : world) (status : Z) :
  fst (body attempt w) ≠ inl (SystemExit status).
Proof.
  intros H. apply loop_body_raises in H.
  destruct H as [[H _]|(c & m & _ & [[H _]|[_ H]])]; try discriminate.
  destruct H as [[H _]|(_ & [[H _]|[H _]])]; discriminate.
Qed.

Lemma for_attempts_no_exit (indices : list Z) :
  ∀ (l : locals) (w : world) (status : Z),
    fst (loop indices l w) ≠ inl (SystemExit status).
Proof.
  induction indices as [|a rest IH]; intros l w status; [discriminate|].
  rewrite for_attempts_step.
  pose proof (loop_body_no_exit a w status) as Hbody.
  destruct (fst (body a w)) as [e|[l'|l'|r]]; simpl; try discriminate.
  - congruence.
  - apply IH.
Qed.

Lemma run_no_exit (w : world) (status : Z) :
  fst (run w) ≠ inl (SystemExit status).
Proof.
  destruct (run_with_retry_after_loop env code max_retries base_delay
              max_delay timeout kernel verbose w) as [_ ->].
  pose proof (for_attempts_no_exit (py_range 1 (max_retries + 1)) no_locals
                w status) as Hloop.
  destruct (fst (loop _ no_locals w)) as [e|[r|l]]; try discriminate.
  - congruence.
  - destruct (attempt_var l); discriminate.
Qed.

End RunMore.

(** ** Codes that are not integers *)

Lemma as_integer_of_integral_float (z : Z) :
  as_integer (PFloat (inject_Z z)) = Some z.
Proof.
  simpl. rewrite Z.mod_1_r, Z.div_1_r. reflexivity.
Qed.

(** X11. What [json.loads] hands over as a code need not be an [int]. A
    float that equals an integer is classified as that integer; a string
    (the digits of a known code included), [None] and the booleans are of
    no known category. *)
Theorem categorize_error_on_other_values :
  (∀ z : Z, categorize_error (PFloat (inject_Z z)) = categorize_error (PInt z))
  ∧ (∀ s : string, categorize_error (PStr s) = inr UNKNOWN)
  ∧ categorize_error PNone = inr UNKNOWN
  ∧ (∀ b : bool, categorize_error (PBool b) = inr UNKNOWN).
Proof.
  split; [|split; [|split]].
  - intros z. unfold categorize_error, py_in.
    change (hashable (PFloat (inject_Z z))) with true.
    change (hashable (PInt z)) with true.
    rewrite as_integer_of_integral_float. simpl.
    destruct (bool_decide (z ∈ TRANSIENT_ERROR_CODES)); [reflexivity|].
    destruct (bool_decide (z ∈ RESOURCE_ERROR_CODES)); [reflexivity|].
    destruct (bool_decide (z ∈ NON_RETRYABLE_CODES)); [|reflexivity].
    simpl. unfold Qle_bool. simpl. rewrite !Z.mul_1_r.
    case_bool_decide; destruct (Z.leb_spec 1200 z); (reflexivity || lia).
  - intros s. reflexivity.
  - reflexivity.
  - intros [|]; vm_compute; reflexivity.
Qed.

(** ** More on main *)

Section MainMore.

Variables (env : nat → proc_outcome) (files : string → option string).

#[local] Abbreviation run_of args code :=
  (run_with_retry env code (arg_max_retries args) (arg_base_delay args) 60
     (arg_timeout args) (negb (arg_terminal args)) (arg_verbose args)).

(** X12. Without code to run [main] does not call the collaborator: with
    neither a code argument nor [--file] (an empty string counts as none)
    it reports the usage error and exits with status 2, and with a file
    it cannot read it exits with status 1. *)
Theorem no_code_no_call (args : Args) :
  (given (arg_file args) = false → given (arg_code args) = false →
   exit_status env files args = 2
   ∧ calls (snd (main env files args world0)) = 0%nat)
  ∧ (given (arg_file args) = true →
     files (default ""%string (arg_file args)) = None →
     exit_status env files args = 1
     ∧ snd (main env files args world0) = world0).
Proof.
  split.
  - intros Hfile Hcode. unfold exit_status, main, bind.
    rewrite Hfile, Hcode. split; reflexivity.
  - intros Hfile Hnone. unfold exit_status, main, bind.
    rewrite Hfile, Hnone. split; reflexivity.
Qed.

(** X13. [--file] wins over the code argument, and a file that is not
    empty is run exactly as its text given on the command line would
    be. *)
Theorem file_is_run_as_its_text (args : Args) (text : string) (w : world) :
  given (arg_file args) = true →
  files (default ""%string (arg_file args)) = Some text →
  text ≠ ""%string →
  main env files args w = main env files (with_code text args) w.
Proof.
  intros Hfile Htext Hne. unfold main, bind. rewrite Hfile, Htext.
  assert (Hgiven : given (Some text) = true).
  { simpl. destruct (String.eqb_spec text ""); [contradiction | reflexivity]. }
  unfold with_code. simpl. simpl in Hgiven. rewrite Hgiven. reflexivity.
Qed.

(** X14. With [--json], whichever way the code was given, [main] prints
    one document after the run and returns. The document carries the
    fields of the result under the keys of the collaborator's responses,
    the number of attempts, and an [error] entry with the code and the
    message exactly when the result is a failure; read the way the attempt
    loop reads a response, it is a success exactly when the result is
    one, and otherwise a failure with the result's error code and
    message. *)
Theorem json_document_round_trip (args : Args) (text : string)
    (r : ExecutionResult) (w' : world) :
  arg_json args = true →
  code_to_run files args = Some text →
  run_of args text world0 = (inr r, w') →
  main env files args world0
  = (inr tt,
     {| calls := calls w';
        trace := trace w' ++ [Print_stdout (Json_dump (json_document r))] |})
  ∧ observe (PDict (json_document r))
    = (if success r then Succeeds (json_document r)
       else Fails (error_code r) (error_message r))
  ∧ (json_document r !! "success"%string = Some (PBool (success r))
     ∧ json_document r !! "result"%string = Some (result r)
     ∧ json_document r !! "stdout"%string = Some (stdout r)
     ∧ json_document r !! "stderr"%string = Some (stderr r)
     ∧ json_document r !! "executionTime"%string = Some (execution_time r)
     ∧ json_document r !! "attempts"%string = Some (PInt (attempts r)))
  ∧ json_document r !! "error"%string
    = (if success r then None
       else Some (dict [("code"%string, error_code r);
                        ("message"%string, error_message r)])).
Proof.
  intros Hjson Hcode Hrun. split; [|split; [|split]].
  - unfold main, bind. unfold code_to_run in Hcode.
    destruct (given (arg_file args)).
    + rewrite Hcode. simpl. rewrite Hrun, Hjson. reflexivity.
    + destruct (given (arg_code args)); [|discriminate].
      rewrite Hcode. simpl. rewrite Hrun, Hjson. reflexivity.
  - apply json_document_reads_back.
  - unfold json_document. destruct (success r); repeat split; reflexivity.
  - unfold json_document. destruct (success r); reflexivity.
Qed.

(** After [parse_args] has returned, the exit status is 0, 1 or 2, and it
    is 2 exactly when there is no code to run. *)
Lemma exit_status_after_parsing (args : Args) :
  (exit_status env files args = 0 ∨ exit_status env files args = 1
   ∨ exit_status env files args = 2)
  ∧ (exit_status env files args = 2
     ↔ given (arg_file args) = false ∧ given (arg_code args) = false).
Proof.
  assert (Hrun : ∀ text out w,
             run_of args text world0 = (out, w) →
             ∀ status, out ≠ inl (SystemExit status)).
  { intros text out w H status.
    pose proof (run_no_exit env text (arg_max_retries args)
                  (arg_base_delay args) 60 (arg_timeout args)
                  (negb (arg_terminal args)) (arg_verbose args) world0
                  status) as Hexit.
    rewrite H in Hexit. exact Hexit. }
  unfold exit_status, main, bind, when, print_stdout, print_stderr, emit,
    lift, raise, ret.
  destruct (given (arg_file args));
    [destruct (files _) as [text|] | destruct (given (arg_code args))];
    simpl.
  all: try match goal with
         | |- context [run_with_retry ?e ?c ?m ?b ?d ?t ?k ?v world0] =>
             let H := fresh "Heq" in
             destruct (run_with_retry e c m b d t k v world0)
               as [[x|r] w] eqn:H; simpl;
             [pose proof (Hrun _ _ _ H) as Hno; destruct x; simpl;
              try (exfalso; eapply Hno; reflexivity)
             |]
         end.
  all: clear Hrun.
  all: repeat match goal with
         | |- context [arg_json ?a] => destruct (arg_json a); simpl
         | |- context [success ?r] => destruct (success r); simpl
         | |- context [truthy ?v] => destruct (truthy v); simpl
         | |- context [arg_verbose ?a] => destruct (arg_verbose a); simpl
         | |- context [format_f ?v] =>
             let H := fresh "Hformat" in
             destruct (format_f v) eqn:H;
             [destruct v; simpl in H; try discriminate; injection H as <-|];
             simpl
         end.
  all: first
         [ split; [auto | split; [intros ?; discriminate
                                 | intros [? ?]; congruence]]
         | split; [auto | split; auto] ].
Qed.

(** X15. The exit status of the script is 0, 1 or 2. It is 2 exactly when
    [argparse] rejects the command line or, the command line parsed,
    there is no code to run: neither a [--file] nor a code argument that
    is not empty. It is 0 after [--help]. *)
Theorem exit_status_values (parsed : parse_outcome) :
  (script_exit_status env files parsed = 0
   ∨ script_exit_status env files parsed = 1
   ∨ script_exit_status env files parsed = 2)
  ∧ (script_exit_status env files parsed = 2
     ↔ (∃ text, parsed = Rejected text)
       ∨ ∃ args, parsed = Parsed args
                 ∧ given (arg_file args) = false
                 ∧ given (arg_code args) = false)
  ∧ script_exit_status env files Help = 0.
Proof.
  split; [|split; [|reflexivity]]; destruct parsed as [args|text|].
  - exact (proj1 (exit_status_after_parsing args)).
  - right. right. reflexivity.
  - left. reflexivity.
  - change (script_exit_status env files (Parsed args))
      with (exit_status env files args).
    rewrite (proj2 (exit_status_after_parsing args)). split.
    + intros H. right. exists args. split; [reflexivity | exact H].
    + intros [[text H]|(args' & H & Hnone)]; [discriminate|].
      injection H as <-. exact Hnone.
  - split; [eauto | reflexivity].
  - split; [discriminate|].
    intros [[text H]|(args & H & _)]; discriminate.
Qed.

(** X16. Run from the command line, the script never sleeps for more than
    60 seconds at a time, whatever [--base-delay] and [--max-retries] are
    and whatever the collaborator answers. *)
Theorem command_line_sleeps_at_most_a_minute (args : Args) :
  Forall (sleep_within 60) (trace (snd (main env files args world0))).
Proof.
  assert (Hrun : ∀ text out w,
             run_of args text world0 = (out, w) →
             Forall (sleep_within 60) (trace w)).
  { intros text out w H.
    pose proof (run_sleep_within env text (arg_max_retries args)
                  (arg_base_delay args) 60 (arg_timeout args)
                  (negb (arg_terminal args)) (arg_verbose args) world0)
      as Hw.
    rewrite H in Hw. apply Hw. constructor. }
  unfold main, bind, when, print_stdout, print_stderr, emit, lift, raise,
    ret.
  destruct (given (arg_file args));
    [destruct (files _) as [text|] | destruct (given (arg_code args))];
    simpl.
  all: try match goal with
         | |- context [run_with_retry ?e ?c ?m ?b ?d ?t ?k ?v world0] =>
             let H := fresh "Heq" in
             destruct (run_with_retry e c m b d t k v world0)
               as [[x|r] w] eqn:H; simpl;
             pose proof (Hrun _ _ _ H) as Hw
         end.
  all: clear Hrun.
  all: repeat match goal with
         | |- context [arg_json ?a] => destruct (arg_json a); simpl
         | |- context [success ?r] => destruct (success r); simpl
         | |- context [truthy ?v] => destruct (truthy v); simpl
         | |- context [arg_verbose ?a] => destruct (arg_verbose a); simpl
         | |- context [format_f ?v] => destruct (format_f v); simpl
         end.
  all: rewrite ?Forall_app; repeat split; try assumption;
    repeat constructor.
Qed.

End MainMore.

(** ** Output that is not JSON *)

Lemma py_prefix_is_a_prefix (s : string) :
  ∀ n : nat,
    ∃ rest, s = (py_prefix n s ++ rest)%string
            ∧ py_len (py_prefix n s) = Nat.min n (py_len s).
Proof.
  induction s as [|c s IH]; intros n; simpl.
  - exists ""%string. split; [reflexivity | lia].
  - destruct (is_continuation c) eqn:Hc.
    + destruct (IH n) as (rest & Heq & Hlen). exists rest.
      split; [|simpl; rewrite Hc; exact Hlen].
      change (String c s = String c (py_prefix n s ++ rest)%string).
      f_equal. exact Heq.
    + destruct n as [|n].
      * exists (String c s). split; reflexivity.
      * destruct (IH n) as (rest & Heq & Hlen). exists rest.
        split; [|simpl; rewrite Hc, Hlen; lia].
        change (String c s = String c (py_prefix n s ++ rest)%string).
        f_equal. exact Heq.
Qed.

(** X17. Output that does not decode as JSON becomes a failure with code 0
    whose message quotes the output, its first 200 characters at most -
    characters, not bytes - and the response keeps the captured standard
    error under [stderr]. *)
Theorem undecodable_output_is_quoted (out err : string) :
  (∃ shown rest,
      out = (shown ++ rest)%string
      ∧ py_len shown = Nat.min 200 (py_len out)
      ∧ observe (colab_response (Other_output out err))
        = Fails (PInt 0) (PStr ("Invalid JSON response: " ++ shown))
      ∧ py_get (colab_response (Other_output out err)) "stderr" PNone
        = inr (PStr err))
  ∧ py_prefix 2 "héllo" = "hé"%string
  ∧ String.length "hé" = 3%nat.
Proof.
  split; [|split; reflexivity].
  destruct (py_prefix_is_a_prefix out 200) as (rest & Heq & Hlen).
  exists (py_prefix 200 out), rest.
  split; [exact Heq|]. split; [exact Hlen|]. split; reflexivity.
Qed.

(** ** The further properties at concrete inputs *)

Lemma backoff_delay_capped_and_monotone_witness :
  (backoff_delay 2 3 60 <= backoff_delay 5 3 60)%Q.
Proof.
  apply (proj2 (backoff_delay_capped_and_monotone 2 5 3 60)).
  - unfold Qle. simpl. lia.
  - lia.
Defined.

Lemma should_retry_raises_iff_witness :
  ∃ e, should_retry (PList []) 1 3 = inl e.
Proof.
  apply (proj2 (proj1 (proj2 (should_retry_raises_iff (PList []) 1 3)))).
  split; [reflexivity | lia].
Defined.

Lemma number_of_calls_bounded_witness :
  1 ≤ Z.of_nat (calls (snd (run_with_retry answers_null "print(2 + 2)" 3 1 60
                              300 true false world0))).
Proof.
  apply (proj2 (number_of_calls_bounded answers_null "print(2 + 2)" 3 1 60
                  300 true false)).
  lia.
Defined.

Lemma run_follows_schedule_witness :
  without_progress
    (trace (snd (run_with_retry third_time_lucky "print(2 + 2)" 5 1 60 300
                   true true world0)))
  = schedule (command_line "print(2 + 2)" 300 true) (300 + 30) 1 60
      (Z.of_nat (calls (snd (run_with_retry third_time_lucky "print(2 + 2)" 5
                               1 60 300 true true world0)))).
Proof.
  apply (run_follows_schedule third_time_lucky "print(2 + 2)" 5 1 60 300 true
           true).
  lia.
Defined.




(** The output and the standard error of an answer that is not JSON do
    not reach the result. *)
Lemma failure_result_has_no_payload_witness :
  fst (run_with_retry prints_a_traceback "print(2 + 2)" 1 1 60 300 true false
         world0)
  = inr {| success := false; result := PNone; stdout := PStr "";
           stderr := PStr ""; execution_time := PFloat 0;
           error_code := PInt 0;
           error_message :=
             PStr "Invalid JSON response: Traceback (most recent call last)";
           attempts := 1 |}
  ∧ py_get (attempt_response prints_a_traceback 1) "stderr" PNone
    = inr (PStr "Killed")
  ∧ result {| success := false; result := PNone; stdout := PStr "";
              stderr := PStr ""; execution_time := PFloat 0;
              error_code := PInt 0;
              error_message :=
                PStr "Invalid JSON response: Traceback (most recent call last)";
              attempts := 1 |} = PNone.
Proof.
  assert (Hrun :
    fst (run_with_retry prints_a_traceback "print(2 + 2)" 1 1 60 300 true
           false world0)
    = inr {| success := false; result := PNone; stdout := PStr "";
             stderr := PStr ""; execution_time := PFloat 0;
             error_code := PInt 0;
             error_message :=
               PStr "Invalid JSON response: Traceback (most recent call last)";
             attempts := 1 |})
    by (vm_compute; reflexivity).
  split; [exact Hrun|]. split; [reflexivity|].
  apply (failure_result_has_no_payload prints_a_traceback "print(2 + 2)" 1 1
           60 300 true false _ Hrun).
  reflexivity.
Defined.




Example timeouts_stop_after_two_attempts :
  fst (run_with_retry never_answers "print(2 + 2)" 5 1 60 300 true false
         world0)
  = inr (failure_result (PInt 1203) (PStr "Execution timeout") 2).
Proof. vm_compute. reflexivity. Qed.

Lemma no_code_no_call_witness :
  (exit_status third_time_lucky one_file no_args = 2
   ∧ calls (snd (main third_time_lucky one_file no_args world0)) = 0%nat)
  ∧ (exit_status third_time_lucky one_file missing_file_args = 1
     ∧ snd (main third_time_lucky one_file missing_file_args world0)
       = world0).
Proof.
  split.
  - apply (proj1 (no_code_no_call third_time_lucky one_file no_args));
      reflexivity.
  - apply (proj2 (no_code_no_call third_time_lucky one_file
                    missing_file_args)); reflexivity.
Defined.

Lemma file_is_run_as_its_text_witness :
  main third_time_lucky one_file file_args world0
  = main third_time_lucky one_file (with_code "train_model()" file_args)
      world0.
Proof.
  apply (file_is_run_as_its_text third_time_lucky one_file file_args
           "train_model()" world0).
  - reflexivity.
  - reflexivity.
  - discriminate.
Defined.

(** [auto-retry.py --json --file train.py] prints the document of the
    run of the file's text. *)
Lemma json_document_round_trip_witness :
  main never_authenticated one_file json_file_args world0
  = (inr tt,
     {| calls := 1;
        trace :=
          [Subprocess_run (command_line "train_model()" 300 true) 330;
           Print_stdout
             (Json_dump
                (json_document
                   {| success := false; result := PNone; stdout := PStr "";
                      stderr := PStr ""; execution_time := PFloat 0;
                      error_code := PInt 1001;
                      error_message := PStr "Not authenticated";
                      attempts := 1 |}))] |}).
Proof.
  apply (proj1 (json_document_round_trip never_authenticated one_file
                  json_file_args "train_model()"
                  {| success := false; result := PNone; stdout := PStr "";
                     stderr := PStr ""; execution_time := PFloat 0;
                     error_code := PInt 1001;
                     error_message := PStr "Not authenticated";
                     attempts := 1 |}
                  {| calls := 1;
                     trace := [Subprocess_run
                                 (command_line "train_model()" 300 true)
                                 330] |}
                  eq_refl eq_refl eq_refl)).
Defined.

(** [auto-retry.py --retries 3] is not a command line [argparse] accepts:
    status 2, whatever code would have been given. *)
Example rejected_command_line :
  script_exit_status never_authenticated one_file
    (Rejected "unrecognized arguments: --retries") = 2.
Proof. reflexivity. Qed.
